(** * The session handler of the Telegram bot (src/main.py)

    A shallow embedding of the webhook handler and of the functions under
    it, and the properties of the session state machine proved on it.

    Conventions of the model:
    - values are decoded JSON documents ([json]); [None] is [JNull];
    - a string that is decoded with [json.loads] is represented by what the
      decoder makes of it ([jtext]);
    - every call to a collaborator is recorded, in order, in the effects of
      a computation ([M]); the answers of the object store and of the
      completion API, which may be exceptions, come from the [World];
    - [get_ai_client()] returns the client or raises, as the [World] says;
      [get_s3_client()] sits in the same [try] as the store call it serves,
      so its failure counts as that call raising; the Telegram calls return
      (their responses are not used).  The exceptions that occur are thus
      those of the store, of the completion client and API, of the decoder
      and of the interpreter (attribute and type errors);
    - the registry that [get_agents()] returns is a [dict] from [str] to
      [str], as its annotation and its uses say;
    - messages of interpreter errors follow CPython's wording; no statement
      depends on them. *)

From Stdlib Require Import ZArith String Ascii List Bool Floats Lia.
From Stdlib Require Import DecimalString.
Import ListNotations.

Set Warnings "-register-all".

Open Scope string_scope.
Open Scope Z_scope.

(** ** Python values *)

(** What [json.loads] produces: [None], [bool], [int], [float], [str],
    [list] and [dict] with string keys.  A [dict] keeps its items in
    insertion order; lookup takes the first binding of a key. *)
Inductive json : Type :=
| JNull
| JBool (b : bool)
| JInt (n : Z)
| JFloat (f : float)
| JStr (s : string)
| JArr (items : list json)
| JObj (items : list (string * json)).

(** A Python [str] that is meant to hold JSON text, seen through what
    [json.loads] makes of it: either the decoder rejects it, with the message
    [error], or it denotes a value. *)
Inductive jtext (A : Type) : Type :=
| Undecodable (raw : string) (error : string)
| Encodes (v : A).
Arguments Undecodable {A} raw error.
Arguments Encodes {A} v.

Inductive exn_class : Type :=
| AttributeError | TypeError | KeyError | IndexError
| JSONDecodeError | ClientError | APIError | OpenAIError.

(** An exception object; [msg] is what [str(e)] returns. *)
Record exn : Type := Exn { cls : exn_class; msg : string }.

Inductive outcome (A : Type) : Type :=
| Ok (a : A)
| Raise (e : exn).
Arguments Ok {A} a.
Arguments Raise {A} e.

(** [bool(x)] *)
Definition truthy (x : json) : bool :=
  match x with
  | JNull => false
  | JBool b => b
  | JInt n => negb (n =? 0)
  | JFloat f => negb (PrimFloat.eqb f 0%float)
  | JStr s => negb (s =? "")%string
  | JArr items => match items with [] => false | _ :: _ => true end
  | JObj items => match items with [] => false | _ :: _ => true end
  end.

(** [type(x).__name__] *)
Definition type_name (x : json) : string :=
  match x with
  | JNull => "NoneType"
  | JBool _ => "bool"
  | JInt _ => "int"
  | JFloat _ => "float"
  | JStr _ => "str"
  | JArr _ => "list"
  | JObj _ => "dict"
  end.

Fixpoint assoc {A : Type} (k : string) (items : list (string * A)) : option A :=
  match items with
  | [] => None
  | (k', v) :: rest => if (k' =? k)%string then Some v else assoc k rest
  end.

Definition has_key {A : Type} (k : string) (items : list (string * A)) : bool :=
  match assoc k items with Some _ => true | None => false end.

(** [x == s] for a [str] literal [s] *)
Definition eq_str (x : json) (s : string) : bool :=
  match x with
  | JStr s' => (s' =? s)%string
  | _ => false
  end.

(** [x in [s1, s2, ...]] for a list of [str] literals *)
Definition in_strs (x : json) (l : list string) : bool :=
  existsb (eq_str x) l.

(** [p in s] on two [str] *)
Fixpoint is_substring (p s : string) : bool :=
  String.prefix p s ||
  match s with
  | EmptyString => false
  | String _ s' => is_substring p s'
  end.

Definition no_attribute {A : Type} (x : json) (attr : string) : outcome A :=
  Raise (Exn AttributeError
    ("'" ++ type_name x ++ "' object has no attribute '" ++ attr ++ "'")).

(** [x.get(k, default)] *)
Definition py_get_default (x : json) (k : string) (default : json) : outcome json :=
  match x with
  | JObj items =>
      match assoc k items with
      | Some v => Ok v
      | None => Ok default
      end
  | _ => no_attribute x "get"
  end.

(** [x.get(k)] *)
Definition py_get (x : json) (k : string) : outcome json :=
  py_get_default x k JNull.

(** [k in x] *)
Definition py_contains (k : string) (x : json) : outcome bool :=
  match x with
  | JObj items => Ok (has_key k items)
  | JArr items => Ok (existsb (fun y => eq_str y k) items)
  | JStr s => Ok (is_substring k s)
  | _ => Raise (Exn TypeError
           ("argument of type '" ++ type_name x ++ "' is not iterable"))
  end.

(** [x[k]] for a [str] key [k] *)
Definition py_getitem (x : json) (k : string) : outcome json :=
  match x with
  | JObj items =>
      match assoc k items with
      | Some v => Ok v
      | None => Raise (Exn KeyError ("'" ++ k ++ "'"))
      end
  | JArr _ => Raise (Exn TypeError "list indices must be integers or slices, not str")
  | JStr _ => Raise (Exn TypeError "string indices must be integers, not 'str'")
  | _ => Raise (Exn TypeError ("'" ++ type_name x ++ "' object is not subscriptable"))
  end.

(** [x.startswith(p)] *)
Definition py_startswith (x : json) (p : string) : outcome bool :=
  match x with
  | JStr s => Ok (String.prefix p s)
  | _ => no_attribute x "startswith"
  end.

(** [s.split(":", 1)] on a [str] *)
Fixpoint split_colon_once (s : string) : list string :=
  match s with
  | EmptyString => [EmptyString]
  | String c s' =>
      if Ascii.eqb c ":" then [EmptyString; s']
      else match split_colon_once s' with
           | h :: t => String c h :: t
           | [] => []
           end
  end.

(** [x.split(":", 1)] *)
Definition py_split_colon_once (x : json) : outcome (list string) :=
  match x with
  | JStr s => Ok (split_colon_once s)
  | _ => no_attribute x "split"
  end.

(** [l[i]] on a list *)
Definition py_nth {A : Type} (l : list A) (i : nat) : outcome A :=
  match nth_error l i with
  | Some a => Ok a
  | None => Raise (Exn IndexError "list index out of range")
  end.

Definition dquote : string := String (ascii_of_nat 34) EmptyString.

(** [x + 1] *)
Definition py_add_one (x : json) : outcome json :=
  match x with
  | JInt n => Ok (JInt (n + 1))
  | JBool b => Ok (JInt ((if b then 1 else 0) + 1))
  | JFloat f => Ok (JFloat (f + 1)%float)
  | JStr _ => Raise (Exn TypeError
      ("can only concatenate str (not " ++ dquote ++ "int" ++ dquote ++ ") to str"))
  | JArr _ => Raise (Exn TypeError
      ("can only concatenate list (not " ++ dquote ++ "int" ++ dquote ++ ") to list"))
  | _ => Raise (Exn TypeError
      ("unsupported operand type(s) for +: '" ++ type_name x ++ "' and 'int'"))
  end.

(** [json.loads(t)] *)
Definition json_loads {A : Type} (t : jtext A) : outcome A :=
  match t with
  | Encodes v => Ok v
  | Undecodable _ error => Raise (Exn JSONDecodeError error)
  end.

(** ** Collaborators and effects *)

(** The agent registry: the [dict] from agent id to display name. *)
Definition registry : Type := list (string * string).

(** The object returned by [client.responses.create]. *)
Record response : Type := Response { id : string; output_text : string }.

(** What lies outside the handler during one invocation. *)
Record World : Type := {
  (** [os.environ.get("AGENTS_JSON")] *)
  AGENTS_JSON : option (jtext registry);
  (** [str(x)] of a value interpolated into an f-string *)
  py_str : json -> string;
  (** [s3.get_object(Bucket, Key)["Body"].read().decode("utf-8")] *)
  s3_get_object : string -> outcome (jtext json);
  (** [s3.put_object(Bucket, Key, Body=json.dumps(state), ...)] *)
  s3_put_object : string -> json -> outcome unit;
  (** [get_ai_client()]: the client, given by what its
      [responses.create(prompt={"id": agent_id}, input, previous_response_id)]
      returns, or the exception raised while the client is built *)
  get_ai_client : outcome (json -> json -> json -> outcome response)
}.

(** [get_ai_client().responses.create(prompt={"id": agent_id}, input,
    previous_response_id)]: what a completion request ends with. *)
Definition responses_create (W : World) (agent_id input previous_response_id : json)
  : outcome response :=
  match get_ai_client W with
  | Ok client => client agent_id input previous_response_id
  | Raise e => Raise e
  end.

(** The calls the handler makes, as they leave it. *)
Inductive effect : Type :=
| S3GetObject (key : string)
| S3PutObject (key : string) (state : json)
| Print (line : string)
| ResponsesCreate (agent_id input previous_response_id : json)
| SendMessage (chat_id : json) (text : string) (reply_markup : option json)
| AnswerCallbackQuery (callback_query_id : json) (text : option string)
| EditMessageText (chat_id message_id : json) (text : string) (reply_markup : option json)
| SendChatAction (chat_id : json).

(** A computation: the effects it performed, in order, and how it ended. *)
Definition M (A : Type) : Type := list effect * outcome A.

Definition ret {A : Type} (a : A) : M A := ([], Ok a).

Definition lift {A : Type} (o : outcome A) : M A := ([], o).

Definition perform (ev : effect) : M unit := ([ev], Ok tt).

Definition bind {A B : Type} (m : M A) (f : A -> M B) : M B :=
  match snd m with
  | Ok a => ((fst m ++ fst (f a))%list, snd (f a))
  | Raise e => (fst m, Raise e)
  end.

(** [try: m  except Exception as e: h e] *)
Definition try_except {A : Type} (m : M A) (h : exn -> M A) : M A :=
  match snd m with
  | Ok a => (fst m, Ok a)
  | Raise e => ((fst m ++ fst (h e))%list, snd (h e))
  end.

Declare Scope py_scope.
Delimit Scope py_scope with py.
Notation "x <- m ;; k" := (bind m (fun x => k))
  (at level 100, m at next level, right associativity) : py_scope.
Notation "m ;; k" := (bind m (fun _ => k))
  (at level 100, right associativity) : py_scope.
Open Scope py_scope.

Definition effects {A : Type} (m : M A) : list effect := fst m.
Definition result {A : Type} (m : M A) : outcome A := snd m.

(** ** The handler *)

Definition nl : string := String (ascii_of_nat 10) EmptyString.

Definition DEFAULT_AGENTS : registry := [].

Definition no_agent_text : string :=
  "❌ Агент не выбран. Используйте /agents для выбора агента.".

(** [get_main_menu()] *)
Definition get_main_menu : json :=
  JObj [("keyboard",
         JArr [JArr [JObj [("text", JStr "🆕 Новый диалог")];
                     JObj [("text", JStr "🤖 Агенты")]];
               JArr [JObj [("text", JStr "📊 Статус")];
                     JObj [("text", JStr "❓ Помощь")]]]);
        ("resize_keyboard", JBool true);
        ("one_time_keyboard", JBool false)].

Definition start_text (agent_name : string) : string :=
  "👋 *Привет!* Я AI-ассистент на базе YandexGPT." ++ nl ++ nl ++
  "🧠 Я запоминаю контекст нашего разговора." ++ nl ++ nl ++
  "🤖 *Текущий агент:* " ++ agent_name ++ nl ++ nl ++
  "*Доступные команды:*" ++ nl ++
  "🆕 *Новый диалог* — сбросить контекст" ++ nl ++
  "🤖 *Агенты* — выбрать агента" ++ nl ++
  "📊 *Статус* — информация о диалоге" ++ nl ++
  "❓ *Помощь* — справка" ++ nl ++ nl ++
  "Просто напиши мне сообщение! 💬".

Definition new_text : string :=
  "🆕 *Диалог сброшен!*" ++ nl ++ nl ++ "Контекст очищен. Начинаем новый разговор.".

Definition agents_text : string :=
  "🤖 *Выберите агента:*" ++ nl ++ nl ++
  "Каждый агент имеет свои настройки, промпт и инструменты.".

Definition status_text (agent_name msg_count has_context : string) : string :=
  "📊 *Статус диалога*" ++ nl ++ nl ++
  "🤖 Агент: " ++ agent_name ++ nl ++
  "💬 Сообщений: " ++ msg_count ++ nl ++
  "🧠 Контекст сохранён: " ++ has_context.

Definition help_text : string :=
  "❓ *Справка*" ++ nl ++ nl ++
  "Я — AI-ассистент с памятью. Я помню наш разговор " ++
  "и могу отвечать с учётом контекста." ++ nl ++ nl ++
  "*Команды:*" ++ nl ++
  "• /new — начать новый диалог" ++ nl ++
  "• /agents — выбрать агента" ++ nl ++
  "• /status — статус диалога" ++ nl ++
  "• /help — эта справка" ++ nl ++ nl ++
  "*Агенты:*" ++ nl ++
  "Вы можете переключаться между разными агентами. " ++
  "Каждый агент имеет свой промпт и инструменты." ++ nl ++ nl ++
  "💡 *Совет:* При смене агента контекст диалога сохраняется!".

Definition selected_text (agent_name : string) : string :=
  "🤖 *Выбран агент:* " ++ agent_name ++ nl ++ nl ++ "Теперь можете начать диалог!".

(** The session record [{"previous_response_id": .., "message_count": ..,
    "agent_id": ..}] as the source writes it. *)
Definition mk_state (previous_response_id message_count agent_id : json) : json :=
  JObj [("previous_response_id", previous_response_id);
        ("message_count", message_count);
        ("agent_id", agent_id)].

(** The bodies of the two webhook envelopes: a [str] still to be decoded, or
    an object the platform has decoded already. *)
Inductive envelope_body : Type :=
| BodyStr (t : jtext json)
| BodyValue (v : json).

(** [event]: a dict in which the key ["body"] may be absent. *)
Record event : Type := Event { body : option envelope_body }.

(** What the handler returns; [resp_body] is the value given to
    [json.dumps]. *)
Record envelope : Type := Envelope {
  statusCode : Z;
  headers : list (string * string);
  resp_body : json
}.

Section Handler.

Variable W : World.

(** [get_agents()] *)
Definition get_agents : registry :=
  match AGENTS_JSON W with
  | Some agents_json =>
      match json_loads agents_json with
      | Ok agents => agents
      | Raise _ => DEFAULT_AGENTS
      end
  | None => DEFAULT_AGENTS
  end.

(** [f"dialogs/{chat_id}.json"] *)
Definition dialog_key (chat_id : json) : string :=
  "dialogs/" ++ py_str W chat_id ++ ".json".

(** [list(agents.keys())[0] if agents else None] *)
Definition default_agent (agents : registry) : json :=
  match agents with
  | (agent_id, _) :: _ => JStr agent_id
  | [] => JNull
  end.

(** [get_dialog_state(chat_id)] *)
Definition get_dialog_state (chat_id : json) : M json :=
  try_except
    (perform (S3GetObject (dialog_key chat_id));;
     text <- lift (s3_get_object W (dialog_key chat_id));;
     lift (json_loads text))
    (fun _ =>
       let agents := get_agents in
       ret (mk_state JNull (JInt 0) (default_agent agents))).

(** [save_dialog_state(chat_id, state)] *)
Definition save_dialog_state (chat_id state : json) : M unit :=
  try_except
    (perform (S3PutObject (dialog_key chat_id) state);;
     lift (s3_put_object W (dialog_key chat_id) state))
    (fun e => perform (Print ("Error saving state: " ++ msg e))).

(** [get_ai_response(message, chat_id)] *)
Definition get_ai_response (message chat_id : json) : M string :=
  try_except
    (client <- lift (get_ai_client W);;
     state <- get_dialog_state chat_id;;
     agent_id <- lift (py_get state "agent_id");;
     if negb (truthy agent_id) then ret no_agent_text
     else
       previous_response_id <- lift (py_get state "previous_response_id");;
       perform (ResponsesCreate agent_id message previous_response_id);;
       response <- lift (client agent_id message previous_response_id);;
       message_count <- lift (py_get_default state "message_count" (JInt 0));;
       message_count' <- lift (py_add_one message_count);;
       save_dialog_state chat_id
         (mk_state (JStr (id response)) message_count' agent_id);;
       ret (output_text response))
    (fun e => ret ("❌ Ошибка: " ++ msg e)).

(** [if x: payload[..] = x]: an optional argument is sent when truthy. *)
Definition when_truthy (x : json) : option json :=
  if truthy x then Some x else None.

(** [send_telegram_message(chat_id, text, reply_markup)] *)
Definition send_telegram_message (chat_id : json) (text : string)
    (reply_markup : json) : M unit :=
  perform (SendMessage chat_id text (when_truthy reply_markup)).

(** [answer_callback_query(callback_query_id, text)] *)
Definition answer_callback_query (callback_query_id : json)
    (text : option string) : M unit :=
  perform (AnswerCallbackQuery callback_query_id
             (match text with
              | Some s => if (s =? "")%string then None else Some s
              | None => None
              end)).

(** [edit_message_text(chat_id, message_id, text, reply_markup)] *)
Definition edit_message_text (chat_id message_id : json) (text : string)
    (reply_markup : json) : M unit :=
  perform (EditMessageText chat_id message_id text (when_truthy reply_markup)).

(** [send_typing_action(chat_id)] *)
Definition send_typing_action (chat_id : json) : M unit :=
  perform (SendChatAction chat_id).

(** One row of the inline keyboard. *)
Definition agent_button (current_agent_id : json) (entry : string * string) : json :=
  let (agent_id, agent_name) := entry in
  let display_name :=
    if eq_str current_agent_id agent_id then "✅ " ++ agent_name else agent_name in
  JArr [JObj [("text", JStr display_name);
              ("callback_data", JStr ("agent:" ++ agent_id))]].

(** [get_agents_inline_keyboard(current_agent_id)] *)
Definition get_agents_inline_keyboard (current_agent_id : json) : json :=
  let agents := get_agents in
  let buttons := map (agent_button current_agent_id) agents in
  JObj [("inline_keyboard", JArr buttons)].

(** [agents.get(agent_id, "Не выбран") if agent_id else "Не выбран"] *)
Definition agent_name_of (agents : registry) (agent_id : json) : outcome string :=
  if truthy agent_id then
    match agent_id with
    | JStr k =>
        match assoc k agents with
        | Some name => Ok name
        | None => Ok "Не выбран"
        end
    | JArr _ | JObj _ =>
        Raise (Exn TypeError ("unhashable type: '" ++ type_name agent_id ++ "'"))
    | _ => Ok "Не выбран"
    end
  else Ok "Не выбран".

(** [handle_command(chat_id, command)]; [JNull] is Python's [None]. *)
Definition handle_command (chat_id command : json) : M json :=
  if in_strs command ["/start"] then
    state <- get_dialog_state chat_id;;
    agent_id <- lift (py_get state "agent_id");;
    let agents := get_agents in
    let agent_id :=
      if negb (truthy agent_id) && negb (length agents =? 0)%nat
      then default_agent agents else agent_id in
    save_dialog_state chat_id (mk_state JNull (JInt 0) agent_id);;
    agent_name <- lift (agent_name_of agents agent_id);;
    send_telegram_message chat_id (start_text agent_name) get_main_menu;;
    ret (JObj [("ok", JBool true); ("action", JStr "start")])
  else if in_strs command ["🆕 Новый диалог"; "/new"] then
    state <- get_dialog_state chat_id;;
    agent_id <- lift (py_get state "agent_id");;
    save_dialog_state chat_id (mk_state JNull (JInt 0) agent_id);;
    send_telegram_message chat_id new_text get_main_menu;;
    ret (JObj [("ok", JBool true); ("action", JStr "new")])
  else if in_strs command ["🤖 Агенты"; "/agents"] then
    state <- get_dialog_state chat_id;;
    current_agent <- lift (py_get state "agent_id");;
    send_telegram_message chat_id agents_text
      (get_agents_inline_keyboard current_agent);;
    ret (JObj [("ok", JBool true); ("action", JStr "agents")])
  else if in_strs command ["/status"; "📊 Статус"] then
    state <- get_dialog_state chat_id;;
    msg_count <- lift (py_get_default state "message_count" (JInt 0));;
    previous_response_id <- lift (py_get state "previous_response_id");;
    let has_context := if truthy previous_response_id then "✅ Да" else "❌ Нет" in
    agent_id <- lift (py_get state "agent_id");;
    let agents := get_agents in
    agent_name <- lift (agent_name_of agents agent_id);;
    send_telegram_message chat_id
      (status_text agent_name (py_str W msg_count) has_context) get_main_menu;;
    ret (JObj [("ok", JBool true); ("action", JStr "status")])
  else if in_strs command ["/help"; "❓ Помощь"] then
    send_telegram_message chat_id help_text get_main_menu;;
    ret (JObj [("ok", JBool true); ("action", JStr "help")])
  else ret JNull.

(** [handle_callback_query(callback_query)] *)
Definition handle_callback_query (callback_query : json) : M json :=
  callback_id <- lift (py_get callback_query "id");;
  data <- lift (py_get_default callback_query "data" (JStr ""));;
  message <- lift (py_get_default callback_query "message" (JObj []));;
  chat <- lift (py_get_default message "chat" (JObj []));;
  chat_id <- lift (py_get chat "id");;
  message_id <- lift (py_get message "message_id");;
  if negb (truthy chat_id) || negb (truthy data) then
    ret (JObj [("ok", JBool true); ("message", JStr "Invalid callback")])
  else
    is_agent <- lift (py_startswith data "agent:");;
    if is_agent then
      parts <- lift (py_split_colon_once data);;
      agent_id <- lift (py_nth parts 1);;
      let agents := get_agents in
      if negb (has_key agent_id agents) then
        answer_callback_query callback_id (Some "❌ Агент не найден");;
        ret (JObj [("ok", JBool false); ("message", JStr "Agent not found")])
      else
        state <- get_dialog_state chat_id;;
        old_agent <- lift (py_get state "agent_id");;
        (if negb (eq_str old_agent agent_id) then
           save_dialog_state chat_id (mk_state JNull (JInt 0) (JStr agent_id));;
           answer_callback_query callback_id
             (Some "✅ Агент изменён! Контекст сброшен.")
         else
           answer_callback_query callback_id (Some "ℹ️ Этот агент уже выбран"));;
        agent_name <- lift (match assoc agent_id agents with
                            | Some name => Ok name
                            | None => Raise (Exn KeyError ("'" ++ agent_id ++ "'"))
                            end);;
        edit_message_text chat_id message_id (selected_text agent_name)
          (get_agents_inline_keyboard (JStr agent_id));;
        ret (JObj [("ok", JBool true); ("action", JStr "agent_selected");
                   ("agent_id", JStr agent_id)])
    else
      answer_callback_query callback_id None;;
      ret (JObj [("ok", JBool true); ("message", JStr "Unknown callback")]).

(** [process_message(update)] *)
Definition process_message (update : json) : M json :=
  is_callback <- lift (py_contains "callback_query" update);;
  if is_callback then
    callback_query <- lift (py_getitem update "callback_query");;
    handle_callback_query callback_query
  else
    message <- lift (py_get_default update "message" (JObj []));;
    chat <- lift (py_get_default message "chat" (JObj []));;
    chat_id <- lift (py_get chat "id");;
    text <- lift (py_get_default message "text" (JStr ""));;
    if negb (truthy chat_id) || negb (truthy text) then
      ret (JObj [("ok", JBool true); ("message", JStr "No message to process")])
    else
      command_result <- handle_command chat_id text;;
      if truthy command_result then ret command_result
      else
        send_typing_action chat_id;;
        ai_response <- get_ai_response text chat_id;;
        send_telegram_message chat_id ai_response get_main_menu;;
        ret (JObj [("ok", JBool true); ("message", JStr "Response sent")]).

(** [handler(event, context)] *)
Definition handler (ev : event) : M envelope :=
  try_except
    (update <- match body ev with
               | Some (BodyStr t) => lift (json_loads t)
               | Some (BodyValue v) => ret v
               | None => ret (JObj [])
               end;;
     result <- process_message update;;
     ret (Envelope 200 [("Content-Type", "application/json")] result))
    (fun e =>
       ret (Envelope 500 [("Content-Type", "application/json")]
              (JObj [("ok", JBool false); ("error", JStr (msg e))]))).

End Handler.

Arguments start_text : simpl never.
Arguments new_text : simpl never.
Arguments agents_text : simpl never.
Arguments status_text : simpl never.
Arguments help_text : simpl never.
Arguments selected_text : simpl never.
Arguments no_agent_text : simpl never.
Arguments get_main_menu : simpl never.
Arguments dialog_key : simpl never.

(** ** Observations on a run *)

(** The session records handed to the store, with their keys, in order. *)
Fixpoint written (l : list effect) : list (string * json) :=
  match l with
  | [] => []
  | S3PutObject key state :: l' => (key, state) :: written l'
  | _ :: l' => written l'
  end.

(** The requests made to the completion API. *)
Fixpoint completions (l : list effect) : list (json * json * json) :=
  match l with
  | [] => []
  | ResponsesCreate a i p :: l' => (a, i, p) :: completions l'
  | _ :: l' => completions l'
  end.

(** The callback acknowledgements issued: callback id and notice. *)
Fixpoint acknowledgements (l : list effect) : list (json * option string) :=
  match l with
  | [] => []
  | AnswerCallbackQuery c t :: l' => (c, t) :: acknowledgements l'
  | _ :: l' => acknowledgements l'
  end.

(** Messages sent or edited in the chat. *)
Fixpoint deliveries (l : list effect) : list effect :=
  match l with
  | [] => []
  | SendMessage c t m :: l' => SendMessage c t m :: deliveries l'
  | EditMessageText c i t m :: l' => EditMessageText c i t m :: deliveries l'
  | _ :: l' => deliveries l'
  end.

(** Reads of the session store. *)
Fixpoint reads (l : list effect) : list string :=
  match l with
  | [] => []
  | S3GetObject key :: l' => key :: reads l'
  | _ :: l' => reads l'
  end.

(** [state.get(k)] as a value; [JNull] where the key is missing. *)
Definition field (state : json) (k : string) : json :=
  match py_get state k with
  | Ok v => v
  | Raise _ => JNull
  end.

(** The state [get_dialog_state] hands to its caller. *)
Definition loaded_state (W : World) (chat_id : json) : json :=
  match s3_get_object W (dialog_key W chat_id) with
  | Ok (Encodes v) => v
  | _ => mk_state JNull (JInt 0) (default_agent (get_agents W))
  end.

(** What [save_dialog_state] does. *)
Definition save_log (W : World) (chat_id state : json) : list effect :=
  S3PutObject (dialog_key W chat_id) state ::
  match s3_put_object W (dialog_key W chat_id) state with
  | Ok _ => []
  | Raise e => [Print ("Error saving state: " ++ msg e)]
  end.
Arguments save_log : simpl never.

(** Every literal that [handle_command] recognises. *)
Definition is_command (text : json) : bool :=
  in_strs text ["/start"; "🆕 Новый диалог"; "/new"; "🤖 Агенты"; "/agents";
                "/status"; "📊 Статус"; "/help"; "❓ Помощь"].

(** [update] is a message update from which [process_message] extracts
    [chat_id] and [text], both truthy, and [text] is no command. *)
Definition free_form_message (update chat_id text : json) : Prop :=
  exists message chat,
    py_contains "callback_query" update = Ok false /\
    py_get_default update "message" (JObj []) = Ok message /\
    py_get_default message "chat" (JObj []) = Ok chat /\
    py_get chat "id" = Ok chat_id /\
    py_get_default message "text" (JStr "") = Ok text /\
    truthy chat_id = true /\ truthy text = true /\
    is_command text = false.

(** The fields [handle_callback_query] reads off a callback query. *)
Definition callback_fields (callback_query callback_id data chat_id message_id : json)
  : Prop :=
  exists message chat,
    py_get callback_query "id" = Ok callback_id /\
    py_get_default callback_query "data" (JStr "") = Ok data /\
    py_get_default callback_query "message" (JObj []) = Ok message /\
    py_get_default message "chat" (JObj []) = Ok chat /\
    py_get chat "id" = Ok chat_id /\
    py_get message "message_id" = Ok message_id.

(** The value [handler] passes to [process_message]. *)
Definition decodes_to (ev : event) (update : json) : Prop :=
  body ev = Some (BodyStr (Encodes update)) \/
  body ev = Some (BodyValue update) \/
  (body ev = None /\ update = JObj []).

(** ** Example worlds *)

Definition demo_registry : registry := [("a1", "Helper"); ("a2", "Coder")].

(** [str] on the values the examples interpolate: integers, strings, [None]
    and booleans. *)
Definition demo_str (x : json) : string :=
  match x with
  | JStr s => s
  | JInt n => NilZero.string_of_int (Z.to_int n)
  | JNull => "None"
  | JBool true => "True"
  | JBool false => "False"
  | _ => ""
  end.

Definition no_such_key : exn :=
  Exn ClientError
    "An error occurred (NoSuchKey) when calling the GetObject operation: The specified key does not exist.".

(** A world in which chat 42 has the stored object [stored], the registry
    variable is [agents] and the completion API answers [ai]. *)
Definition demo_world (agents : option (jtext registry))
    (stored : outcome (jtext json)) (ai : outcome response) : World :=
  {| AGENTS_JSON := agents;
     py_str := demo_str;
     s3_get_object := fun key =>
       if (key =? "dialogs/42.json")%string then stored else Raise no_such_key;
     s3_put_object := fun _ _ => Ok tt;
     get_ai_client := Ok (fun _ _ _ => ai) |}.

Definition demo_agents : option (jtext registry) := Some (Encodes demo_registry).

(** [{"message": {"chat": {"id": chat_id}, "text": text}}] *)
Definition message_update (chat_id text : json) : json :=
  JObj [("message", JObj [("chat", JObj [("id", chat_id)]); ("text", text)])].

(** [{"callback_query": {"id": .., "data": .., "message": {"chat": {"id": ..},
    "message_id": ..}}}] *)
Definition callback_query_of (callback_id data chat_id message_id : json) : json :=
  JObj [("id", callback_id); ("data", data);
        ("message", JObj [("chat", JObj [("id", chat_id)]);
                          ("message_id", message_id)])].

(** A callback query that carries no [data]: Telegram leaves the field out
    for buttons that are not data buttons.
    [{"id": "cb1", "message": {"chat": {"id": 42}, "message_id": 7}}] *)
Definition callback_without_data : json :=
  JObj [("id", JStr "cb1");
        ("message", JObj [("chat", JObj [("id", JInt 42)]);
                          ("message_id", JInt 7)])].

(** A webhook envelope whose body is a string that is not JSON. *)
Definition undecodable_event : event :=
  Event (Some (BodyStr (Undecodable "not json"
                          "Expecting value: line 1 column 1 (char 0)"))).

(** A world with an empty registry and no stored session. *)
Definition empty_world : World :=
  demo_world None (Raise no_such_key) (Raise no_such_key).

(** A world with the demo registry in which chat 42 has an active session
    with agent a1. *)
Definition active_world : World :=
  demo_world demo_agents
    (Ok (Encodes (mk_state (JStr "t1") (JInt 3) (JStr "a1"))))
    (Ok (Response "t2" "Hello")).

(** The rule for switching agents, on one record: if its agent differs
    from the loaded one, it has no continuation token and count 0. *)
Definition resets_on_agent_change (loaded state : json) : Prop :=
  field state "agent_id" <> field loaded "agent_id" ->
  field state "previous_response_id" = JNull /\
  field state "message_count" = JInt 0.

(** A write obeys the rule with respect to the session loaded for the same
    chat in the same run. *)
Definition write_respects (W : World) (w : string * json) : Prop :=
  exists chat_id loaded,
    fst w = dialog_key W chat_id /\
    result (get_dialog_state W chat_id) = Ok loaded /\
    resets_on_agent_change loaded (snd w).

(** Every record the computation hands to the store satisfies [P]. *)
Definition writes_all {A : Type} (P : string * json -> Prop) (m : M A) : Prop :=
  Forall P (written (effects m)).

(** A world with the single agent a1 and no stored session. *)
Definition fresh_world : World :=
  demo_world (Some (Encodes [("a1", "Helper")])) (Raise no_such_key)
    (Ok (Response "t2" "Hello")).

(** Every call the computation makes satisfies [P]. *)
Definition calls_all {A : Type} (P : effect -> Prop) (m : M A) : Prop :=
  Forall P (effects m).

(** The call is not a request to the completion API. *)
Definition no_completion (ev : effect) : Prop :=
  match ev with
  | ResponsesCreate _ _ _ => False
  | _ => True
  end.

(** The call, if it names a session object or a chat, names those of
    [chat_id]. *)
Definition addresses (W : World) (chat_id : json) (ev : effect) : Prop :=
  match ev with
  | S3GetObject key => key = dialog_key W chat_id
  | S3PutObject key _ => key = dialog_key W chat_id
  | SendMessage c _ _ => c = chat_id
  | EditMessageText c _ _ _ => c = chat_id
  | SendChatAction c => c = chat_id
  | Print _ => True
  | ResponsesCreate _ _ _ => True
  | AnswerCallbackQuery _ _ => True
  end.

(** The kinds of calls: store reads and writes, log lines, completion
    requests, messages sent or edited, callback acknowledgements, typing
    indicators. *)
Inductive kind : Type :=
| KRead | KWrite | KPrint | KCompletion | KDelivery | KAnswer | KTyping.

Definition kind_of (ev : effect) : kind :=
  match ev with
  | S3GetObject _ => KRead
  | S3PutObject _ _ => KWrite
  | Print _ => KPrint
  | ResponsesCreate _ _ _ => KCompletion
  | SendMessage _ _ _ => KDelivery
  | EditMessageText _ _ _ _ => KDelivery
  | AnswerCallbackQuery _ _ => KAnswer
  | SendChatAction _ => KTyping
  end.

Definition kind_eqb (k1 k2 : kind) : bool :=
  match k1, k2 with
  | KRead, KRead | KWrite, KWrite | KPrint, KPrint
  | KCompletion, KCompletion | KDelivery, KDelivery
  | KAnswer, KAnswer | KTyping, KTyping => true
  | _, _ => false
  end.

Definition is_kind (k : kind) (ev : effect) : bool := kind_eqb (kind_of ev) k.

(** How many calls of one kind a run made. *)
Definition count_if (p : effect -> bool) (l : list effect) : nat :=
  length (filter p l).

(** The computation makes at most [n] calls of kind [p]. *)
Definition at_most {A : Type} (p : effect -> bool) (n : nat) (m : M A) : Prop :=
  (count_if p (effects m) <= n)%nat.

(** The active world, with a store that rejects every write. *)
Definition read_only_world : World :=
  {| AGENTS_JSON := demo_agents;
     py_str := demo_str;
     s3_get_object := s3_get_object active_world;
     s3_put_object := fun _ _ => Raise (Exn ClientError "AccessDenied");
     get_ai_client := get_ai_client active_world |}.

(** A world in which the record of chat 42 has [None] as message count. *)
Definition null_count_world : World :=
  demo_world demo_agents
    (Ok (Encodes (mk_state (JStr "t1") JNull (JStr "a1"))))
    (Ok (Response "t2" "Hello")).

(** A world in which the object of chat 42 decodes to a list. *)
Definition list_record_world : World :=
  demo_world demo_agents (Ok (Encodes (JArr []))) (Ok (Response "t2" "Hello")).


(** [None] or a [str]. *)
Definition opt_str (x : json) : Prop :=
  x = JNull \/ exists s, x = JStr s.

(** A session record as the data model has it: the three fields, the
    token and the agent [None] or a string, the count a non-negative
    integer. *)
Definition session_record (state : json) : Prop :=
  exists token count agent_id,
    state = mk_state token (JInt count) agent_id /\
    0 <= count /\ opt_str token /\ opt_str agent_id.

(** Every object of the store that decodes is a session record. *)
Definition store_well_formed (W : World) : Prop :=
  forall key v, s3_get_object W key = Ok (Encodes v) -> session_record v.

(** The world after the turn of [active_world]: chat 42 holds the record
    that turn wrote, and the completion API answers turn t3. *)
Definition next_world : World :=
  demo_world demo_agents
    (Ok (Encodes (mk_state (JStr "t2") (JInt 4) (JStr "a1"))))
    (Ok (Response "t3" "Again")).

(** The world after /new in [active_world]. *)
Definition reset_world : World :=
  demo_world demo_agents
    (Ok (Encodes (mk_state JNull (JInt 0) (JStr "a1"))))
    (Ok (Response "t3" "Again")).

(** With an empty registry and no stored session, no agent exists: the
    call is no completion request and a written record has no agent. *)
Definition inert (ev : effect) : Prop :=
  match ev with
  | ResponsesCreate _ _ _ => False
  | S3PutObject _ state => field state "agent_id" = JNull
  | _ => True
  end.


(** What [openai.OpenAI] raises when it is given no API key. *)
Definition missing_credentials : exn :=
  Exn OpenAIError
    "The api_key client option must be set either by passing api_key to the client or by setting the OPENAI_API_KEY environment variable".

(** A world without API key, in which the record of chat 42 has no agent
    selected. *)
Definition keyless_world : World :=
  {| AGENTS_JSON := demo_agents;
     py_str := demo_str;
     s3_get_object := fun key =>
       if (key =? "dialogs/42.json")%string
       then Ok (Encodes (mk_state JNull (JInt 0) JNull))
       else Raise no_such_key;
     s3_put_object := fun _ _ => Ok tt;
     get_ai_client := Raise missing_credentials |}.

(** ** Running the store adapter *)

Lemma get_dialog_state_run (W : World) (chat_id : json) :
  get_dialog_state W chat_id =
    ([S3GetObject (dialog_key W chat_id)], Ok (loaded_state W chat_id)).
Proof.
  unfold get_dialog_state, loaded_state, try_except, bind, perform, lift, ret.
  simpl.
  destruct (s3_get_object W (dialog_key W chat_id)) as [[raw error | v] | e];
    reflexivity.
Qed.

Lemma save_dialog_state_run (W : World) (chat_id state : json) :
  save_dialog_state W chat_id state = (save_log W chat_id state, Ok tt).
Proof.
  unfold save_dialog_state, save_log, try_except, bind, perform, lift.
  simpl.
  destruct (s3_put_object W (dialog_key W chat_id) state) as [[] | e]; reflexivity.
Qed.

Lemma written_save_log (W : World) (chat_id state : json) :
  written (save_log W chat_id state) = [(dialog_key W chat_id, state)].
Proof.
  unfold save_log.
  destruct (s3_put_object W (dialog_key W chat_id) state); reflexivity.
Qed.

Lemma written_app (l1 l2 : list effect) :
  written (l1 ++ l2) = (written l1 ++ written l2)%list.
Proof.
  induction l1 as [| ev l1 IH]; [reflexivity |].
  destruct ev; simpl; rewrite ?IH; reflexivity.
Qed.

Lemma completions_save_log (W : World) (chat_id state : json) :
  completions (save_log W chat_id state) = [].
Proof.
  unfold save_log.
  destruct (s3_put_object W (dialog_key W chat_id) state); reflexivity.
Qed.

Lemma completions_app (l1 l2 : list effect) :
  completions (l1 ++ l2) = (completions l1 ++ completions l2)%list.
Proof.
  induction l1 as [| ev l1 IH]; [reflexivity |].
  destruct ev; simpl; rewrite ?IH; reflexivity.
Qed.

(** [get_dialog_state] never raises. *)
Lemma get_dialog_state_total (W : World) (chat_id : json) :
  exists state, result (get_dialog_state W chat_id) = Ok state.
Proof. rewrite get_dialog_state_run. eexists. reflexivity. Qed.

(** ** Loading a session *)

(** Stored text that decodes is returned as decoded, whatever its shape. *)
Lemma get_dialog_state_decoded (W : World) (chat_id v : json) :
  s3_get_object W (dialog_key W chat_id) = Ok (Encodes v) ->
  result (get_dialog_state W chat_id) = Ok v.
Proof.
  intros H. rewrite get_dialog_state_run. unfold result, loaded_state. simpl.
  rewrite H. reflexivity.
Qed.

(** C7: when the session object is absent or the read fails (the store call
    raises), or the stored text does not decode, [get_dialog_state] returns
    the default state -- no continuation token, count 0, the first registry
    key as agent or [None] for an empty registry -- and raises nothing. *)
Theorem C7_load_falls_back_to_default (W : World) (chat_id : json) :
  (exists e, s3_get_object W (dialog_key W chat_id) = Raise e) \/
  (exists raw error,
     s3_get_object W (dialog_key W chat_id) = Ok (Undecodable raw error)) ->
  result (get_dialog_state W chat_id) =
    Ok (mk_state JNull (JInt 0)
          (match get_agents W with
           | (agent_id, _) :: _ => JStr agent_id
           | [] => JNull
           end)).
Proof.
  intros H.
  rewrite get_dialog_state_run. unfold result, loaded_state. simpl.
  destruct H as [[e He] | (raw & error & Hraw)].
  - rewrite He. reflexivity.
  - rewrite Hraw. reflexivity.
Qed.

Lemma C7_witness_absent :
  (exists e, s3_get_object (demo_world demo_agents (Raise no_such_key) (Raise no_such_key))
               (dialog_key (demo_world demo_agents (Raise no_such_key) (Raise no_such_key))
                  (JInt 42)) = Raise e) /\
  result (get_dialog_state
            (demo_world demo_agents (Raise no_such_key) (Raise no_such_key)) (JInt 42)) =
    Ok (mk_state JNull (JInt 0) (JStr "a1")).
Proof.
  split.
  - exists no_such_key. reflexivity.
  - apply (C7_load_falls_back_to_default
             (demo_world demo_agents (Raise no_such_key) (Raise no_such_key)) (JInt 42)).
    left. exists no_such_key. reflexivity.
Defined.

Lemma loaded_of_result (W : World) (chat_id state : json) :
  result (get_dialog_state W chat_id) = Ok state ->
  loaded_state W chat_id = state.
Proof. rewrite get_dialog_state_run. simpl. intros H. injection H. auto. Qed.

(** ** Routing *)

Lemma handle_command_no_command (W : World) (chat_id text : json) :
  is_command text = false ->
  handle_command W chat_id text = ret JNull.
Proof.
  unfold is_command, in_strs. simpl. intros H.
  repeat (apply orb_false_elim in H; destruct H as [?H H]).
  unfold handle_command, in_strs. simpl.
  repeat match goal with
         | E : eq_str text _ = false |- _ => rewrite E; clear E
         end.
  reflexivity.
Qed.

(** What [process_message] does with free-form text: typing indicator, the
    completion turn, then the reply with the main menu attached. *)
Lemma process_message_free_form (W : World) (update chat_id text : json) :
  free_form_message update chat_id text ->
  process_message W update =
    ((SendChatAction chat_id :: effects (get_ai_response W text chat_id)) ++
       match result (get_ai_response W text chat_id) with
       | Ok reply => [SendMessage chat_id reply (Some get_main_menu)]
       | Raise _ => []
       end,
     match result (get_ai_response W text chat_id) with
     | Ok _ => Ok (JObj [("ok", JBool true); ("message", JStr "Response sent")])
     | Raise e => Raise e
     end)%list.
Proof.
  intros (message & chat & Hcb & Hmsg & Hchat & Hid & Htext & Tc & Tt & Hcmd).
  unfold process_message.
  rewrite Hcb. unfold bind at 1. simpl.
  rewrite Hmsg. unfold bind at 1. simpl.
  rewrite Hchat. unfold bind at 1. simpl.
  rewrite Hid. unfold bind at 1. simpl.
  rewrite Htext. unfold bind at 1. simpl.
  rewrite Tc, Tt. simpl.
  rewrite (handle_command_no_command W chat_id text Hcmd).
  unfold bind at 1. simpl.
  unfold bind, send_typing_action, send_telegram_message, perform, ret, effects, result.
  simpl.
  destruct (snd (get_ai_response W text chat_id)) as [reply | e]; simpl.
  - reflexivity.
  - rewrite ?app_nil_r. reflexivity.
Qed.

(** ** The completion turn *)

(** A completion request that returns was made through a client that was
    built. *)
Lemma responses_create_client (W : World) (agent_id input previous : json)
    (r : response) :
  responses_create W agent_id input previous = Ok r ->
  exists client, get_ai_client W = Ok client.
Proof.
  unfold responses_create.
  destruct (get_ai_client W) as [client | e]; [eauto | discriminate].
Qed.

(** When the client cannot be built, [get_ai_response] touches nothing and
    returns the error text. *)
Lemma get_ai_response_no_client (W : World) (message chat_id : json) (e : exn) :
  get_ai_client W = Raise e ->
  get_ai_response W message chat_id = ([], Ok ("❌ Ошибка: " ++ msg e)).
Proof. intros H. unfold get_ai_response. rewrite H. reflexivity. Qed.

(** [get_ai_response] on a session that loaded as a [dict], branch by
    branch. *)
Lemma get_ai_response_run (W : World) (message chat_id : json)
    (items : list (string * json))
    (client : json -> json -> json -> outcome response) :
  get_ai_client W = Ok client ->
  loaded_state W chat_id = JObj items ->
  get_ai_response W message chat_id =
    let key := dialog_key W chat_id in
    let agent_id := field (JObj items) "agent_id" in
    let previous := field (JObj items) "previous_response_id" in
    let count := match assoc "message_count" items with
                 | Some v => v
                 | None => JInt 0
                 end in
    if negb (truthy agent_id) then ([S3GetObject key], Ok no_agent_text)
    else
      match responses_create W agent_id message previous with
      | Raise e =>
          ([S3GetObject key; ResponsesCreate agent_id message previous],
           Ok ("❌ Ошибка: " ++ msg e))
      | Ok r =>
          match py_add_one count with
          | Ok count' =>
              (S3GetObject key :: ResponsesCreate agent_id message previous ::
                 save_log W chat_id (mk_state (JStr (id r)) count' agent_id),
               Ok (output_text r))
          | Raise e =>
              ([S3GetObject key; ResponsesCreate agent_id message previous],
               Ok ("❌ Ошибка: " ++ msg e))
          end
      end.
Proof.
  intros Hclient Hload.
  unfold get_ai_response, responses_create.
  rewrite Hclient, get_dialog_state_run, Hload.
  unfold field, py_get, py_get_default. cbn.
  destruct (assoc "agent_id" items) as [agent_id |]; cbn; [| reflexivity].
  destruct (truthy agent_id) eqn:Ta; cbn; [| reflexivity].
  destruct (assoc "previous_response_id" items) as [previous |]; cbn;
    (destruct (client agent_id message _) as [r | e]; cbn;
     [| reflexivity]);
    (destruct (assoc "message_count" items) as [count |]; cbn;
     [destruct (py_add_one count) as [count' | e]; cbn |]);
    rewrite ?save_dialog_state_run; cbn; rewrite ?app_nil_r; reflexivity.
Qed.

(** [get_ai_response] returns a string whatever happens inside it. *)
Lemma get_ai_response_total (W : World) (message chat_id : json) :
  exists reply, result (get_ai_response W message chat_id) = Ok reply.
Proof.
  unfold get_ai_response, try_except, result, ret.
  destruct (snd (_ <- lift (get_ai_client W);; _)); simpl; eauto.
Qed.

Lemma deliveries_app (l1 l2 : list effect) :
  deliveries (l1 ++ l2) = (deliveries l1 ++ deliveries l2)%list.
Proof.
  induction l1 as [| ev l1 IH]; [reflexivity |].
  destruct ev; simpl; rewrite ?IH; reflexivity.
Qed.

Lemma deliveries_save_log (W : World) (chat_id state : json) :
  deliveries (save_log W chat_id state) = [].
Proof.
  unfold save_log.
  destruct (s3_put_object W (dialog_key W chat_id) state); reflexivity.
Qed.

(** C8 (amended): when the loaded session has no [agent_id], or has it
    [None], no request is made to the completion API.  If the client can be
    built, [get_ai_response] returns the fixed text that points to /agents,
    and a free-form message causes the typing indicator, the read of the
    session and that one reply, nothing else.  If building the client
    raises, the session is not read and the error text with the exception's
    message is returned instead. *)
Theorem C8_no_agent_no_completion (W : World) (message chat_id : json)
    (items : list (string * json)) :
  result (get_dialog_state W chat_id) = Ok (JObj items) ->
  assoc "agent_id" items = None \/ assoc "agent_id" items = Some JNull ->
  completions (effects (get_ai_response W message chat_id)) = [] /\
  is_substring "/agents" no_agent_text = true /\
  (forall client,
     get_ai_client W = Ok client ->
     result (get_ai_response W message chat_id) = Ok no_agent_text /\
     forall update,
       free_form_message update chat_id message ->
       effects (process_message W update) =
         [SendChatAction chat_id; S3GetObject (dialog_key W chat_id);
          SendMessage chat_id no_agent_text (Some get_main_menu)]) /\
  (forall e,
     get_ai_client W = Raise e ->
     get_ai_response W message chat_id = ([], Ok ("❌ Ошибка: " ++ msg e))).
Proof.
  intros Hload Hagent.
  apply loaded_of_result in Hload.
  assert (Hrun : forall client,
             get_ai_client W = Ok client ->
             get_ai_response W message chat_id =
               ([S3GetObject (dialog_key W chat_id)], Ok no_agent_text)).
  { intros client Hclient.
    rewrite (get_ai_response_run W message chat_id items client Hclient Hload).
    unfold field, py_get, py_get_default.
    destruct Hagent as [H | H]; rewrite H; reflexivity. }
  split; [| split; [reflexivity | split]].
  - destruct (get_ai_client W) as [client | e] eqn:Hclient.
    + rewrite (Hrun client eq_refl). reflexivity.
    + rewrite (get_ai_response_no_client W message chat_id e Hclient). reflexivity.
  - intros client Hclient. split.
    + rewrite (Hrun client Hclient). reflexivity.
    + intros update Hfree.
      rewrite (process_message_free_form W update chat_id message Hfree).
      rewrite (Hrun client Hclient). reflexivity.
  - intros e Hclient. apply get_ai_response_no_client. exact Hclient.
Qed.

Lemma C8_witness :
  result (get_dialog_state
            (demo_world None (Raise no_such_key) (Ok (Response "t2" "Hello")))
            (JInt 42)) =
    Ok (JObj [("previous_response_id", JNull); ("message_count", JInt 0);
              ("agent_id", JNull)]) /\
  effects (process_message
             (demo_world None (Raise no_such_key) (Ok (Response "t2" "Hello")))
             (message_update (JInt 42) (JStr "hi"))) =
    [SendChatAction (JInt 42); S3GetObject "dialogs/42.json";
     SendMessage (JInt 42) no_agent_text (Some get_main_menu)].
Proof.
  split; [reflexivity |].
  destruct (C8_no_agent_no_completion
              (demo_world None (Raise no_such_key) (Ok (Response "t2" "Hello")))
              (JStr "hi") (JInt 42)
              [("previous_response_id", JNull); ("message_count", JInt 0);
               ("agent_id", JNull)]
              eq_refl (or_intror eq_refl)) as (_ & _ & Hbuilt & _).
  apply (Hbuilt (fun _ _ _ => Ok (Response "t2" "Hello")) eq_refl).
  exists (JObj [("chat", JObj [("id", JInt 42)]); ("text", JStr "hi")]).
  exists (JObj [("id", JInt 42)]).
  repeat split; reflexivity.
Defined.

(** The claim as the specification words it -- the reply is the
    no-agent-selected message whenever the session has no agent -- fails
    when the client cannot be built: without an API key the session of
    chat 42, which has no agent, is not even read, and the reply is the
    error text. *)
Lemma C8_counterexample :
  result (get_dialog_state keyless_world (JInt 42)) =
    Ok (mk_state JNull (JInt 0) JNull) /\
  get_ai_response keyless_world (JStr "hi") (JInt 42) =
    ([], Ok ("❌ Ошибка: " ++ msg missing_credentials)) /\
  result (get_ai_response keyless_world (JStr "hi") (JInt 42)) <> Ok no_agent_text.
Proof.
  split; [reflexivity |]. split; [reflexivity |].
  discriminate.
Qed.

(** C4: on a session with a selected agent and an integer (or missing)
    message count, when the completion call succeeds, [get_ai_response]
    hands the store exactly one record -- the returned turn id as
    continuation token, the loaded count plus one, the loaded agent -- and
    returns the output text, which is the one message then sent to the
    chat. *)
Theorem C4_successful_turn_advances (W : World) (message chat_id : json)
    (items : list (string * json)) (agent_id : json) (n : Z) (r : response) :
  result (get_dialog_state W chat_id) = Ok (JObj items) ->
  assoc "agent_id" items = Some agent_id ->
  truthy agent_id = true ->
  assoc "message_count" items = Some (JInt n) \/
    (assoc "message_count" items = None /\ n = 0) ->
  responses_create W agent_id message (field (JObj items) "previous_response_id") = Ok r ->
  written (effects (get_ai_response W message chat_id)) =
    [(dialog_key W chat_id, mk_state (JStr (id r)) (JInt (n + 1)) agent_id)] /\
  result (get_ai_response W message chat_id) = Ok (output_text r) /\
  forall update,
    free_form_message update chat_id message ->
    deliveries (effects (process_message W update)) =
      [SendMessage chat_id (output_text r) (Some get_main_menu)].
Proof.
  intros Hload Hagent Ta Hcount Hai.
  apply loaded_of_result in Hload.
  destruct (responses_create_client _ _ _ _ _ Hai) as [client Hclient].
  assert (Hrun : get_ai_response W message chat_id =
                 (S3GetObject (dialog_key W chat_id) ::
                  ResponsesCreate agent_id message
                    (field (JObj items) "previous_response_id") ::
                  save_log W chat_id (mk_state (JStr (id r)) (JInt (n + 1)) agent_id),
                  Ok (output_text r))).
  { rewrite (get_ai_response_run W message chat_id items client Hclient Hload).
    cbv zeta.
    replace (field (JObj items) "agent_id") with agent_id
      by (unfold field, py_get, py_get_default; rewrite Hagent; reflexivity).
    rewrite Ta, Hai. simpl.
    destruct Hcount as [Hc | [Hc Hn]]; rewrite Hc; [| subst n]; reflexivity. }
  repeat split.
  - rewrite Hrun. simpl. apply written_save_log.
  - rewrite Hrun. reflexivity.
  - intros update Hfree.
    rewrite (process_message_free_form W update chat_id message Hfree).
    rewrite Hrun. unfold effects, result. cbn [fst snd].
    rewrite deliveries_app. cbn [deliveries].
    rewrite deliveries_save_log. reflexivity.
Qed.

Lemma C4_witness :
  result (get_dialog_state
            (demo_world demo_agents
               (Ok (Encodes (mk_state (JStr "t1") (JInt 3) (JStr "a1"))))
               (Ok (Response "t2" "Hello")))
            (JInt 42)) =
    Ok (mk_state (JStr "t1") (JInt 3) (JStr "a1")) /\
  written (effects (get_ai_response
                      (demo_world demo_agents
                         (Ok (Encodes (mk_state (JStr "t1") (JInt 3) (JStr "a1"))))
                         (Ok (Response "t2" "Hello")))
                      (JStr "hi") (JInt 42))) =
    [("dialogs/42.json", mk_state (JStr "t2") (JInt 4) (JStr "a1"))] /\
  result (get_ai_response
            (demo_world demo_agents
               (Ok (Encodes (mk_state (JStr "t1") (JInt 3) (JStr "a1"))))
               (Ok (Response "t2" "Hello")))
            (JStr "hi") (JInt 42)) = Ok "Hello".
Proof.
  split; [reflexivity |].
  destruct (C4_successful_turn_advances
              (demo_world demo_agents
                 (Ok (Encodes (mk_state (JStr "t1") (JInt 3) (JStr "a1"))))
                 (Ok (Response "t2" "Hello")))
              (JStr "hi") (JInt 42)
              [("previous_response_id", JStr "t1"); ("message_count", JInt 3);
               ("agent_id", JStr "a1")]
              (JStr "a1") 3 (Response "t2" "Hello")
              eq_refl eq_refl eq_refl (or_introl eq_refl) eq_refl)
    as (Hw & Hr & _).
  split; [exact Hw | exact Hr].
Defined.

(** C5: on a session with a selected agent, when the completion request
    raises, [get_ai_response] hands nothing to the store and returns -- it
    does not raise -- the error text that ends with the exception's
    message; the router then sends that text as the reply and ends
    normally.  When the client was built and its call raised, the run is:
    typing indicator, read of the session, the failed request, the reply;
    when building the client raised, it is the typing indicator and the
    reply. *)
Theorem C5_client_failure_leaves_state (W : World) (message chat_id : json)
    (items : list (string * json)) (agent_id : json) (e : exn) :
  result (get_dialog_state W chat_id) = Ok (JObj items) ->
  assoc "agent_id" items = Some agent_id ->
  truthy agent_id = true ->
  responses_create W agent_id message (field (JObj items) "previous_response_id") = Raise e ->
  written (effects (get_ai_response W message chat_id)) = [] /\
  result (get_ai_response W message chat_id) = Ok ("❌ Ошибка: " ++ msg e) /\
  (forall client update,
     get_ai_client W = Ok client ->
     free_form_message update chat_id message ->
     process_message W update =
       ([SendChatAction chat_id;
         S3GetObject (dialog_key W chat_id);
         ResponsesCreate agent_id message (field (JObj items) "previous_response_id");
         SendMessage chat_id ("❌ Ошибка: " ++ msg e) (Some get_main_menu)],
        Ok (JObj [("ok", JBool true); ("message", JStr "Response sent")]))) /\
  (forall e' update,
     get_ai_client W = Raise e' ->
     free_form_message update chat_id message ->
     process_message W update =
       ([SendChatAction chat_id;
         SendMessage chat_id ("❌ Ошибка: " ++ msg e) (Some get_main_menu)],
        Ok (JObj [("ok", JBool true); ("message", JStr "Response sent")]))).
Proof.
  intros Hload Hagent Ta Hai.
  apply loaded_of_result in Hload.
  assert (Hbuilt : forall client,
             get_ai_client W = Ok client ->
             get_ai_response W message chat_id =
               ([S3GetObject (dialog_key W chat_id);
                 ResponsesCreate agent_id message
                   (field (JObj items) "previous_response_id")],
                Ok ("❌ Ошибка: " ++ msg e))).
  { intros client Hclient.
    rewrite (get_ai_response_run W message chat_id items client Hclient Hload).
    cbv zeta.
    replace (field (JObj items) "agent_id") with agent_id
      by (unfold field, py_get, py_get_default; rewrite Hagent; reflexivity).
    rewrite Ta, Hai. reflexivity. }
  assert (Hnone : forall e',
             get_ai_client W = Raise e' ->
             get_ai_response W message chat_id =
               ([], Ok ("❌ Ошибка: " ++ msg e))).
  { intros e' Hclient.
    unfold responses_create in Hai. rewrite Hclient in Hai.
    injection Hai as ->.
    apply get_ai_response_no_client. exact Hclient. }
  split; [| split; [| split]].
  - destruct (get_ai_client W) as [client | e'] eqn:Hclient.
    + rewrite (Hbuilt client eq_refl). reflexivity.
    + rewrite (Hnone e' eq_refl). reflexivity.
  - destruct (get_ai_client W) as [client | e'] eqn:Hclient.
    + rewrite (Hbuilt client eq_refl). reflexivity.
    + rewrite (Hnone e' eq_refl). reflexivity.
  - intros client update Hclient Hfree.
    rewrite (process_message_free_form W update chat_id message Hfree).
    rewrite (Hbuilt client Hclient). reflexivity.
  - intros e' update Hclient Hfree.
    rewrite (process_message_free_form W update chat_id message Hfree).
    rewrite (Hnone e' Hclient). reflexivity.
Qed.

Lemma C5_witness :
  written (effects (get_ai_response
                      (demo_world demo_agents
                         (Ok (Encodes (mk_state (JStr "t1") (JInt 3) (JStr "a1"))))
                         (Raise (Exn APIError "Connection error.")))
                      (JStr "hi") (JInt 42))) = [] /\
  result (get_ai_response
            (demo_world demo_agents
               (Ok (Encodes (mk_state (JStr "t1") (JInt 3) (JStr "a1"))))
               (Raise (Exn APIError "Connection error.")))
            (JStr "hi") (JInt 42)) = Ok "❌ Ошибка: Connection error.".
Proof.
  destruct (C5_client_failure_leaves_state
              (demo_world demo_agents
                 (Ok (Encodes (mk_state (JStr "t1") (JInt 3) (JStr "a1"))))
                 (Raise (Exn APIError "Connection error.")))
              (JStr "hi") (JInt 42)
              [("previous_response_id", JStr "t1"); ("message_count", JInt 3);
               ("agent_id", JStr "a1")]
              (JStr "a1") (Exn APIError "Connection error.")
              eq_refl eq_refl eq_refl eq_refl) as (Hw & Hr & _).
  split; [exact Hw | exact Hr].
Defined.

(** ** Commands *)

Lemma in_strs_inv (x : json) (l : list string) :
  in_strs x l = true -> exists s, x = JStr s /\ In s l.
Proof.
  unfold in_strs. intros H.
  apply existsb_exists in H. destruct H as (s & Hin & Heq).
  destruct x; simpl in Heq; try discriminate.
  apply String.eqb_eq in Heq. subst. eauto.
Qed.

Ltac pick_literal H :=
  apply in_strs_inv in H;
  let s := fresh "s" in
  let Hs := fresh "Hs" in
  let Hin := fresh "Hin" in
  destruct H as (s & Hs & Hin); subst;
  simpl in Hin;
  repeat (destruct Hin as [Hin | Hin]; [subst s |]); [.. | contradiction].

(** The new-dialog command on a session that loaded as a [dict]. *)
Lemma handle_command_new (W : World) (chat_id command : json)
    (items : list (string * json)) :
  in_strs command ["🆕 Новый диалог"; "/new"] = true ->
  loaded_state W chat_id = JObj items ->
  handle_command W chat_id command =
    ((S3GetObject (dialog_key W chat_id) ::
        save_log W chat_id (mk_state JNull (JInt 0) (field (JObj items) "agent_id"))) ++
       [SendMessage chat_id new_text (Some get_main_menu)],
     Ok (JObj [("ok", JBool true); ("action", JStr "new")]))%list.
Proof.
  intros Hcmd Hload.
  pick_literal Hcmd;
    unfold handle_command; cbn;
    rewrite get_dialog_state_run, Hload;
    unfold field, py_get, py_get_default; cbn;
    destruct (assoc "agent_id" items) as [agent_id |]; cbn;
    rewrite save_dialog_state_run; cbn; rewrite ?app_nil_r; reflexivity.
Qed.

(** The agents-list command on a session that loaded as a [dict]. *)
Lemma handle_command_agents (W : World) (chat_id command : json)
    (items : list (string * json)) :
  in_strs command ["🤖 Агенты"; "/agents"] = true ->
  loaded_state W chat_id = JObj items ->
  handle_command W chat_id command =
    ([S3GetObject (dialog_key W chat_id);
      SendMessage chat_id agents_text
        (Some (get_agents_inline_keyboard W (field (JObj items) "agent_id")))],
     Ok (JObj [("ok", JBool true); ("action", JStr "agents")])).
Proof.
  intros Hcmd Hload.
  pick_literal Hcmd;
    unfold handle_command; cbn;
    rewrite get_dialog_state_run, Hload;
    unfold field, py_get, py_get_default; cbn;
    destruct (assoc "agent_id" items) as [agent_id |]; cbn; reflexivity.
Qed.

(** ** Sequencing *)

Lemma bind_lift_ok {A B : Type} (a : A) (f : A -> M B) :
  bind (lift (Ok a)) f = f a.
Proof. unfold bind, lift. simpl. destruct (f a). reflexivity. Qed.

Lemma bind_lift_raise {A B : Type} (e : exn) (f : A -> M B) :
  bind (lift (Raise e)) f = ([], Raise e).
Proof. reflexivity. Qed.

Lemma bind_ret {A B : Type} (a : A) (f : A -> M B) :
  bind (ret a) f = f a.
Proof. apply bind_lift_ok. Qed.

Lemma bind_pair_ok {A B : Type} (l : list effect) (a : A) (f : A -> M B) :
  bind (l, Ok a) f = ((l ++ effects (f a))%list, result (f a)).
Proof. reflexivity. Qed.

Lemma bind_perform {B : Type} (ev : effect) (f : unit -> M B) :
  bind (perform ev) f = (ev :: effects (f tt), result (f tt)).
Proof. reflexivity. Qed.

Ltac read H := rewrite H, bind_lift_ok; cbv beta.

(** ** Callback queries *)

(** A callback query without a chat id or without data: nothing is called. *)
Lemma handle_callback_query_invalid (W : World)
    (callback_query callback_id data chat_id message_id : json) :
  callback_fields callback_query callback_id data chat_id message_id ->
  truthy chat_id = false \/ truthy data = false ->
  handle_callback_query W callback_query =
    ([], Ok (JObj [("ok", JBool true); ("message", JStr "Invalid callback")])).
Proof.
  intros (message & chat & Hid & Hdata & Hmsg & Hchat & Hcid & Hmid) Hfalsy.
  unfold handle_callback_query.
  read Hid. read Hdata. read Hmsg. read Hchat. read Hcid. read Hmid.
  destruct Hfalsy as [H | H]; rewrite H; [| rewrite orb_true_r]; reflexivity.
Qed.

(** Data that is not an agent selection: one bare acknowledgement. *)
Lemma handle_callback_query_unknown (W : World)
    (callback_query callback_id chat_id message_id : json) (data : string) :
  callback_fields callback_query callback_id (JStr data) chat_id message_id ->
  truthy chat_id = true ->
  data <> "" ->
  String.prefix "agent:" data = false ->
  handle_callback_query W callback_query =
    ([AnswerCallbackQuery callback_id None],
     Ok (JObj [("ok", JBool true); ("message", JStr "Unknown callback")])).
Proof.
  intros (message & chat & Hid & Hdata & Hmsg & Hchat & Hcid & Hmid) Tc Hne Hpre.
  unfold handle_callback_query.
  read Hid. read Hdata. read Hmsg. read Hchat. read Hcid. read Hmid.
  rewrite Tc.
  assert (Td : truthy (JStr data) = true).
  { simpl. destruct data; [contradiction | reflexivity]. }
  rewrite Td. cbn [negb orb].
  unfold py_startswith. rewrite Hpre, bind_lift_ok.
  reflexivity.
Qed.

Lemma prefix_app (p : string) :
  forall s, String.prefix p s = true -> exists rest, s = p ++ rest.
Proof.
  induction p as [| a p IH]; intros s H.
  - exists s. reflexivity.
  - destruct s as [| b s]; [discriminate H |].
    simpl in H.
    destruct (ascii_dec a b) as [<- |]; [| discriminate H].
    destruct (IH s H) as [rest ->].
    exists rest. reflexivity.
Qed.

Lemma startswith_agent (agent_id : string) :
  py_startswith (JStr ("agent:" ++ agent_id)) "agent:" = Ok true.
Proof. unfold py_startswith. simpl. destruct agent_id; reflexivity. Qed.

Lemma split_agent_data (agent_id : string) :
  py_split_colon_once (JStr ("agent:" ++ agent_id)) = Ok ["agent"; agent_id].
Proof. reflexivity. Qed.

(** An agent selection for an agent outside the registry. *)
Lemma handle_callback_query_not_found (W : World)
    (callback_query callback_id chat_id message_id : json) (agent_id : string) :
  callback_fields callback_query callback_id (JStr ("agent:" ++ agent_id))
    chat_id message_id ->
  truthy chat_id = true ->
  has_key agent_id (get_agents W) = false ->
  handle_callback_query W callback_query =
    ([AnswerCallbackQuery callback_id (Some "❌ Агент не найден")],
     Ok (JObj [("ok", JBool false); ("message", JStr "Agent not found")])).
Proof.
  intros (message & chat & Hid & Hdata & Hmsg & Hchat & Hcid & Hmid) Tc Hreg.
  unfold handle_callback_query.
  read Hid. read Hdata. read Hmsg. read Hchat. read Hcid. read Hmid.
  rewrite Tc.
  change (truthy (JStr ("agent:" ++ agent_id))) with true. cbn [negb orb].
  rewrite startswith_agent, bind_lift_ok.
  rewrite split_agent_data, bind_lift_ok. cbv beta.
  change (py_nth ["agent"; agent_id] 1) with (Ok agent_id). rewrite bind_lift_ok.
  rewrite Hreg. reflexivity.
Qed.

(** An agent selection for a registered agent, on a session that loaded as
    a [dict]. *)
Lemma handle_callback_query_select (W : World)
    (callback_query callback_id chat_id message_id : json)
    (agent_id agent_name : string) (items : list (string * json)) :
  callback_fields callback_query callback_id (JStr ("agent:" ++ agent_id))
    chat_id message_id ->
  truthy chat_id = true ->
  assoc agent_id (get_agents W) = Some agent_name ->
  loaded_state W chat_id = JObj items ->
  handle_callback_query W callback_query =
    ((S3GetObject (dialog_key W chat_id) ::
      (if eq_str (field (JObj items) "agent_id") agent_id
       then [AnswerCallbackQuery callback_id (Some "ℹ️ Этот агент уже выбран")]
       else save_log W chat_id (mk_state JNull (JInt 0) (JStr agent_id)) ++
            [AnswerCallbackQuery callback_id
               (Some "✅ Агент изменён! Контекст сброшен.")])) ++
     [EditMessageText chat_id message_id (selected_text agent_name)
        (Some (get_agents_inline_keyboard W (JStr agent_id)))],
     Ok (JObj [("ok", JBool true); ("action", JStr "agent_selected");
               ("agent_id", JStr agent_id)]))%list.
Proof.
  intros (message & chat & Hid & Hdata & Hmsg & Hchat & Hcid & Hmid) Tc Hreg Hload.
  unfold handle_callback_query.
  read Hid. read Hdata. read Hmsg. read Hchat. read Hcid. read Hmid.
  rewrite Tc.
  change (truthy (JStr ("agent:" ++ agent_id))) with true. cbn [negb orb].
  rewrite startswith_agent, bind_lift_ok.
  rewrite split_agent_data, bind_lift_ok. cbv beta.
  change (py_nth ["agent"; agent_id] 1) with (Ok agent_id). rewrite bind_lift_ok.
  unfold has_key. rewrite Hreg. cbn [negb].
  rewrite get_dialog_state_run, Hload, bind_pair_ok.
  unfold field, py_get, py_get_default.
  destruct (assoc "agent_id" items) as [old_agent |]; rewrite bind_lift_ok;
    [destruct (eq_str old_agent agent_id) |
     change (eq_str JNull agent_id) with false]; cbn [negb];
    rewrite ?save_dialog_state_run; reflexivity.
Qed.

Lemma written_select (W : World) (chat_id : json) (agent_id : string)
    (old_agent : json) (same changed rest : list effect) :
  written changed = [] -> written rest = [] ->
  eq_str old_agent agent_id = false ->
  written (S3GetObject (dialog_key W chat_id) ::
           (if eq_str old_agent agent_id then same
            else save_log W chat_id (mk_state JNull (JInt 0) (JStr agent_id)) ++ changed)
           ++ rest) =
    [(dialog_key W chat_id, mk_state JNull (JInt 0) (JStr agent_id))].
Proof.
  intros H1 H2 Hne. rewrite Hne.
  cbn [written]. rewrite !written_app, written_save_log, H1, H2. reflexivity.
Qed.

(** C6: on every session that loads as a record, the new-dialog command
    hands the store one record that keeps the loaded agent and has no
    continuation token and count 0; and selecting a registered agent other
    than the loaded one hands the store one record with the new agent, no
    continuation token and count 0, whatever token and count were loaded. *)
Theorem C6_reset_zeroes_token_and_count (W : World) (chat_id : json)
    (items : list (string * json)) :
  result (get_dialog_state W chat_id) = Ok (JObj items) ->
  (forall command,
     in_strs command ["🆕 Новый диалог"; "/new"] = true ->
     written (effects (handle_command W chat_id command)) =
       [(dialog_key W chat_id,
         mk_state JNull (JInt 0) (field (JObj items) "agent_id"))]) /\
  (forall callback_query callback_id message_id agent_id,
     callback_fields callback_query callback_id (JStr ("agent:" ++ agent_id))
       chat_id message_id ->
     truthy chat_id = true ->
     has_key agent_id (get_agents W) = true ->
     eq_str (field (JObj items) "agent_id") agent_id = false ->
     written (effects (handle_callback_query W callback_query)) =
       [(dialog_key W chat_id, mk_state JNull (JInt 0) (JStr agent_id))]).
Proof.
  intros Hload. apply loaded_of_result in Hload.
  split.
  - intros command Hcmd.
    rewrite (handle_command_new W chat_id command items Hcmd Hload).
    unfold effects. cbn [fst].
    rewrite written_app. cbn [written]. rewrite written_save_log. reflexivity.
  - intros callback_query callback_id message_id agent_id Hfields Tc Hreg Hne.
    unfold has_key in Hreg.
    destruct (assoc agent_id (get_agents W)) as [agent_name |] eqn:Hname;
      [| discriminate].
    rewrite (handle_callback_query_select W callback_query callback_id chat_id
               message_id agent_id agent_name items Hfields Tc Hname Hload).
    unfold effects. cbn [fst].
    apply written_select; [reflexivity | reflexivity | exact Hne].
Qed.

Lemma C6_witness :
  written (effects (handle_command active_world (JInt 42) (JStr "/new"))) =
    [("dialogs/42.json", mk_state JNull (JInt 0) (JStr "a1"))] /\
  written (effects (handle_callback_query active_world
                      (callback_query_of (JStr "cb1") (JStr "agent:a2")
                         (JInt 42) (JInt 7)))) =
    [("dialogs/42.json", mk_state JNull (JInt 0) (JStr "a2"))].
Proof.
  destruct (C6_reset_zeroes_token_and_count active_world (JInt 42)
              [("previous_response_id", JStr "t1"); ("message_count", JInt 3);
               ("agent_id", JStr "a1")] eq_refl) as [Hnew Hswitch].
  split.
  - apply (Hnew (JStr "/new")). reflexivity.
  - apply (Hswitch (callback_query_of (JStr "cb1") (JStr "agent:a2") (JInt 42) (JInt 7))
             (JStr "cb1") (JInt 7) "a2").
    + exists (JObj [("chat", JObj [("id", JInt 42)]); ("message_id", JInt 7)]).
      exists (JObj [("id", JInt 42)]).
      repeat split; reflexivity.
    + reflexivity.
    + reflexivity.
    + reflexivity.
Defined.

(** ** The agents list *)

Lemma nth_error_buttons (current : json) (agents : registry) (i : nat)
    (agent_id agent_name : string) :
  nth_error agents i = Some (agent_id, agent_name) ->
  nth_error (map (agent_button current) agents) i =
    Some (JArr [JObj [("text",
                       JStr (if eq_str current agent_id
                             then "✅ " ++ agent_name else agent_name));
                      ("callback_data", JStr ("agent:" ++ agent_id))]]).
Proof.
  intros H. rewrite nth_error_map, H. reflexivity.
Qed.

(** C9 (amended): the agents-list command or label always reaches the
    keyboard branch, whether or not the registry is empty; on a session that
    loads as a record it reads the session, sends one message whose inline
    keyboard has exactly one button per registry entry, in registry order,
    the entry equal to the loaded agent marked with a check mark, and hands
    nothing to the store. *)
Theorem C9_agents_list_renders_registry (W : World) (chat_id command : json)
    (items : list (string * json)) :
  in_strs command ["🤖 Агенты"; "/agents"] = true ->
  result (get_dialog_state W chat_id) = Ok (JObj items) ->
  exists buttons,
    effects (handle_command W chat_id command) =
      [S3GetObject (dialog_key W chat_id);
       SendMessage chat_id agents_text
         (Some (JObj [("inline_keyboard", JArr buttons)]))] /\
    result (handle_command W chat_id command) =
      Ok (JObj [("ok", JBool true); ("action", JStr "agents")]) /\
    length buttons = length (get_agents W) /\
    (forall i agent_id agent_name,
       nth_error (get_agents W) i = Some (agent_id, agent_name) ->
       nth_error buttons i =
         Some (JArr [JObj [("text",
                            JStr (if eq_str (field (JObj items) "agent_id") agent_id
                                  then "✅ " ++ agent_name else agent_name));
                           ("callback_data", JStr ("agent:" ++ agent_id))]])) /\
    written (effects (handle_command W chat_id command)) = [].
Proof.
  intros Hcmd Hload. apply loaded_of_result in Hload.
  exists (map (agent_button (field (JObj items) "agent_id")) (get_agents W)).
  rewrite (handle_command_agents W chat_id command items Hcmd Hload).
  repeat split.
  - apply length_map.
  - intros i agent_id agent_name Hi. apply nth_error_buttons. exact Hi.
Qed.

Lemma C9_witness :
  exists buttons,
    effects (handle_command active_world (JInt 42) (JStr "/agents")) =
      [S3GetObject "dialogs/42.json";
       SendMessage (JInt 42) agents_text
         (Some (JObj [("inline_keyboard", JArr buttons)]))] /\
    nth_error buttons 0 =
      Some (JArr [JObj [("text", JStr "✅ Helper"); ("callback_data", JStr "agent:a1")]]) /\
    nth_error buttons 1 =
      Some (JArr [JObj [("text", JStr "Coder"); ("callback_data", JStr "agent:a2")]]).
Proof.
  destruct (C9_agents_list_renders_registry active_world (JInt 42) (JStr "/agents")
              [("previous_response_id", JStr "t1"); ("message_count", JInt 3);
               ("agent_id", JStr "a1")] eq_refl eq_refl)
    as (buttons & Heff & _ & _ & Hnth & _).
  exists buttons. split; [exact Heff |]. split.
  - exact (Hnth 0%nat "a1" "Helper" eq_refl).
  - exact (Hnth 1%nat "a2" "Coder" eq_refl).
Defined.

(** The claim as the specification words it -- the keyboard branch is
    taken only when the registry is non-empty -- fails: with an empty
    registry /agents still sends the selection message, with no button. *)
Lemma C9_counterexample :
  get_agents empty_world = [] /\
  handle_command empty_world (JInt 42) (JStr "/agents") =
    ([S3GetObject "dialogs/42.json";
      SendMessage (JInt 42) agents_text (Some (JObj [("inline_keyboard", JArr [])]))],
     Ok (JObj [("ok", JBool true); ("action", JStr "agents")])).
Proof. split; reflexivity. Qed.

(** ** The webhook entry point *)

Lemma handler_decoded (W : World) (ev : event) (update : json) :
  decodes_to ev update ->
  handler W ev =
    try_except
      (result <- process_message W update;;
       ret (Envelope 200 [("Content-Type", "application/json")] result))
      (fun e =>
         ret (Envelope 500 [("Content-Type", "application/json")]
                (JObj [("ok", JBool false); ("error", JStr (msg e))]))).
Proof.
  unfold handler.
  intros [H | [H | [H Hu]]]; rewrite H; cbn [json_loads]; subst;
    rewrite ?bind_lift_ok, ?bind_ret; reflexivity.
Qed.

(** When [process_message] returns, the handler adds nothing and answers
    200 with that result. *)
Lemma handler_ok (W : World) (ev : event) (update : json)
    (l : list effect) (r : json) :
  decodes_to ev update ->
  process_message W update = (l, Ok r) ->
  handler W ev = (l, Ok (Envelope 200 [("Content-Type", "application/json")] r)).
Proof.
  intros Hdec Hrun.
  rewrite (handler_decoded W ev update Hdec), Hrun.
  unfold try_except, bind, ret. simpl. rewrite app_nil_r. reflexivity.
Qed.

Lemma process_message_callback (W : World) (update callback_query : json) :
  py_contains "callback_query" update = Ok true ->
  py_getitem update "callback_query" = Ok callback_query ->
  process_message W update = handle_callback_query W callback_query.
Proof.
  intros Hin Hget. unfold process_message.
  read Hin. read Hget. reflexivity.
Qed.

(** C10: a callback query with a truthy chat id whose data is a non-empty
    string not starting with [agent:] is acknowledged once, without notice
    text; the session store is neither read nor written, nothing is sent or
    edited, and the webhook answers 200 with an ok result. *)
Theorem C10_unknown_callback_acknowledged_only (W : World) (ev : event)
    (update callback_query callback_id chat_id message_id : json) (data : string) :
  decodes_to ev update ->
  py_contains "callback_query" update = Ok true ->
  py_getitem update "callback_query" = Ok callback_query ->
  callback_fields callback_query callback_id (JStr data) chat_id message_id ->
  truthy chat_id = true ->
  data <> "" ->
  String.prefix "agent:" data = false ->
  effects (handle_callback_query W callback_query) =
    [AnswerCallbackQuery callback_id None] /\
  acknowledgements (effects (handle_callback_query W callback_query)) =
    [(callback_id, None)] /\
  reads (effects (handle_callback_query W callback_query)) = [] /\
  written (effects (handle_callback_query W callback_query)) = [] /\
  deliveries (effects (handle_callback_query W callback_query)) = [] /\
  result (handle_callback_query W callback_query) =
    Ok (JObj [("ok", JBool true); ("message", JStr "Unknown callback")]) /\
  handler W ev =
    ([AnswerCallbackQuery callback_id None],
     Ok (Envelope 200 [("Content-Type", "application/json")]
           (JObj [("ok", JBool true); ("message", JStr "Unknown callback")]))).
Proof.
  intros Hdec Hin Hget Hfields Tc Hne Hpre.
  pose proof (handle_callback_query_unknown W callback_query callback_id chat_id
                message_id data Hfields Tc Hne Hpre) as Hrun.
  rewrite Hrun. repeat split.
  apply (handler_ok W ev update); [exact Hdec |].
  rewrite (process_message_callback W update callback_query Hin Hget).
  exact Hrun.
Qed.

Lemma C10_witness :
  handler active_world
    (Event (Some (BodyValue
       (JObj [("callback_query",
               callback_query_of (JStr "cb1") (JStr "noop") (JInt 42) (JInt 7))])))) =
    ([AnswerCallbackQuery (JStr "cb1") None],
     Ok (Envelope 200 [("Content-Type", "application/json")]
           (JObj [("ok", JBool true); ("message", JStr "Unknown callback")]))).
Proof.
  apply (C10_unknown_callback_acknowledged_only active_world
           (Event (Some (BodyValue
              (JObj [("callback_query",
                      callback_query_of (JStr "cb1") (JStr "noop") (JInt 42) (JInt 7))]))))
           (JObj [("callback_query",
                   callback_query_of (JStr "cb1") (JStr "noop") (JInt 42) (JInt 7))])
           (callback_query_of (JStr "cb1") (JStr "noop") (JInt 42) (JInt 7))
           (JStr "cb1") (JInt 42) (JInt 7) "noop").
  - right. left. reflexivity.
  - reflexivity.
  - reflexivity.
  - exists (JObj [("chat", JObj [("id", JInt 42)]); ("message_id", JInt 7)]).
    exists (JObj [("id", JInt 42)]).
    repeat split; reflexivity.
  - reflexivity.
  - discriminate.
  - reflexivity.
Defined.

(** C3 (the code at the failing input): a callback query that carries no
    data is answered with the [Invalid callback] result and no call to
    answerCallbackQuery at all -- neither from [handle_callback_query] nor
    from the handler around it, which answers 200. *)
Theorem C3_callback_without_data_unacknowledged (W : World) :
  handle_callback_query W callback_without_data =
    ([], Ok (JObj [("ok", JBool true); ("message", JStr "Invalid callback")])) /\
  acknowledgements (effects (handle_callback_query W callback_without_data)) = [] /\
  handler W (Event (Some (BodyValue (JObj [("callback_query", callback_without_data)])))) =
    ([], Ok (Envelope 200 [("Content-Type", "application/json")]
               (JObj [("ok", JBool true); ("message", JStr "Invalid callback")]))).
Proof. repeat split. Qed.

(** Outside the early return, every callback query with a string as data
    is acknowledged exactly once, provided the session loads as a record. *)
Lemma callback_acknowledged_once (W : World)
    (callback_query callback_id chat_id message_id : json) (data : string)
    (items : list (string * json)) :
  callback_fields callback_query callback_id (JStr data) chat_id message_id ->
  truthy chat_id = true ->
  data <> "" ->
  loaded_state W chat_id = JObj items ->
  exists notice,
    acknowledgements (effects (handle_callback_query W callback_query)) =
      [(callback_id, notice)].
Proof.
  intros Hfields Tc Hne Hload.
  destruct (String.prefix "agent:" data) eqn:Hpre.
  - assert (Hsplit : exists agent_id, data = "agent:" ++ agent_id).
    { apply prefix_app. exact Hpre. }
    destruct Hsplit as [agent_id ->].
    destruct (assoc agent_id (get_agents W)) as [agent_name |] eqn:Hname.
    + rewrite (handle_callback_query_select W callback_query callback_id chat_id
                 message_id agent_id agent_name items Hfields Tc Hname Hload).
      unfold effects. cbn [fst acknowledgements].
      destruct (eq_str (field (JObj items) "agent_id") agent_id).
      * eexists. reflexivity.
      * unfold save_log.
        destruct (s3_put_object W _ _); eexists; reflexivity.
    + rewrite (handle_callback_query_not_found W callback_query callback_id chat_id
                 message_id agent_id Hfields Tc).
      * eexists. reflexivity.
      * unfold has_key. rewrite Hname. reflexivity.
  - rewrite (handle_callback_query_unknown W callback_query callback_id chat_id
               message_id data Hfields Tc Hne Hpre).
    eexists. reflexivity.
Qed.

(** C1 (amended): a body that is a string the JSON decoder rejects makes
    the handler answer 500, having called nothing; a body that decodes to an
    object with neither [message] nor [callback_query] makes it answer 200
    with the [No message to process] result, having called nothing. *)
Theorem C1_undecodable_500_keyless_200 (W : World) (ev : event) :
  (forall raw error,
     body ev = Some (BodyStr (Undecodable raw error)) ->
     handler W ev =
       ([], Ok (Envelope 500 [("Content-Type", "application/json")]
                  (JObj [("ok", JBool false); ("error", JStr error)])))) /\
  (forall items,
     decodes_to ev (JObj items) ->
     has_key "message" items = false ->
     has_key "callback_query" items = false ->
     handler W ev =
       ([], Ok (Envelope 200 [("Content-Type", "application/json")]
                  (JObj [("ok", JBool true);
                         ("message", JStr "No message to process")])))).
Proof.
  split.
  - intros raw error Hbody. unfold handler. rewrite Hbody. reflexivity.
  - intros items Hdec Hmsg Hcb.
    apply (handler_ok W ev (JObj items)); [exact Hdec |].
    unfold process_message, py_contains, py_get_default.
    rewrite Hcb, bind_lift_ok.
    unfold has_key in Hmsg.
    destruct (assoc "message" items); [discriminate |].
    reflexivity.
Qed.

Lemma C1_witness :
  handler active_world undecodable_event =
    ([], Ok (Envelope 500 [("Content-Type", "application/json")]
               (JObj [("ok", JBool false);
                      ("error", JStr "Expecting value: line 1 column 1 (char 0)")]))) /\
  handler active_world (Event (Some (BodyStr (Encodes (JObj [("update_id", JInt 1)]))))) =
    ([], Ok (Envelope 200 [("Content-Type", "application/json")]
               (JObj [("ok", JBool true);
                      ("message", JStr "No message to process")]))).
Proof.
  split.
  - apply (proj1 (C1_undecodable_500_keyless_200 active_world undecodable_event)
             "not json" "Expecting value: line 1 column 1 (char 0)").
    reflexivity.
  - apply (proj2 (C1_undecodable_500_keyless_200 active_world
                    (Event (Some (BodyStr (Encodes (JObj [("update_id", JInt 1)]))))))
             [("update_id", JInt 1)]).
    + left. reflexivity.
    + reflexivity.
    + reflexivity.
Defined.

(** The claim as the specification words it -- 200 for a body that is not
    valid JSON -- fails: the decoder's exception reaches the outer [except]
    and the answer is 500. *)
Lemma C1_counterexample :
  (exists raw error, body undecodable_event = Some (BodyStr (Undecodable raw error))) /\
  exists r,
    result (handler active_world undecodable_event) = Ok r /\
    statusCode r = 500 /\ statusCode r <> 200.
Proof.
  split; [do 2 eexists; reflexivity |].
  eexists. split; [reflexivity |]. split; [reflexivity | discriminate].
Qed.

(** ** The agent-change rule over all writes *)

Section Writes.

Context {A B : Type} (P : string * json -> Prop).

Lemma writes_all_silent (m : M A) :
  written (effects m) = [] -> writes_all P m.
Proof. unfold writes_all. intros ->. constructor. Qed.

Lemma writes_all_bind (m : M A) (f : A -> M B) :
  writes_all P m ->
  (forall a, result m = Ok a -> writes_all P (f a)) ->
  writes_all P (bind m f).
Proof.
  unfold writes_all, bind, effects, result.
  destruct m as [l [a | e]]; simpl; intros Hm Hf; [| exact Hm].
  rewrite written_app. apply Forall_app. split; [exact Hm |].
  apply Hf. reflexivity.
Qed.

Lemma writes_all_try (m : M A) (h : exn -> M A) :
  writes_all P m ->
  (forall e, writes_all P (h e)) ->
  writes_all P (try_except m h).
Proof.
  unfold writes_all, try_except, effects.
  destruct m as [l [a | e]]; simpl; intros Hm Hh; [exact Hm |].
  rewrite written_app. apply Forall_app. split; [exact Hm | apply Hh].
Qed.

End Writes.

Lemma writes_all_save (P : string * json -> Prop) (W : World) (chat_id state : json) :
  P (dialog_key W chat_id, state) ->
  writes_all P (save_dialog_state W chat_id state).
Proof.
  intros H. unfold writes_all.
  rewrite save_dialog_state_run. unfold effects. cbn [fst].
  rewrite written_save_log. constructor; [exact H | constructor].
Qed.

Lemma writes_all_load (P : string * json -> Prop) (W : World) (chat_id : json) :
  writes_all P (get_dialog_state W chat_id).
Proof. apply writes_all_silent. rewrite get_dialog_state_run. reflexivity. Qed.

(** A record without token and with count 0 obeys the rule whatever was
    loaded. *)
Lemma reset_respects (W : World) (chat_id agent_id : json) :
  write_respects W (dialog_key W chat_id, mk_state JNull (JInt 0) agent_id).
Proof.
  exists chat_id, (loaded_state W chat_id).
  split; [reflexivity |]. split; [rewrite get_dialog_state_run; reflexivity |].
  intros _. split; reflexivity.
Qed.

(** A record that carries the loaded agent obeys the rule. *)
Lemma advance_respects (W : World) (chat_id state token count agent_id : json) :
  result (get_dialog_state W chat_id) = Ok state ->
  py_get state "agent_id" = Ok agent_id ->
  write_respects W (dialog_key W chat_id, mk_state token count agent_id).
Proof.
  intros Hload Hagent.
  exists chat_id, state.
  split; [reflexivity |]. split; [exact Hload |].
  intros Hdiff. exfalso. apply Hdiff.
  unfold field. rewrite Hagent. reflexivity.
Qed.

Ltac writes_step :=
  match goal with
  | |- writes_all _ (bind _ _) => apply writes_all_bind; [| intros ? ?]
  | |- writes_all _ (try_except _ _) => apply writes_all_try; [| intros ?]
  | |- writes_all _ (get_dialog_state _ _) => apply writes_all_load
  | |- writes_all _ (save_dialog_state _ _ _) => apply writes_all_save
  | |- writes_all _ (if ?b then _ else _) => destruct b
  | |- writes_all _ _ => apply writes_all_silent; reflexivity
  end.

Lemma handle_command_writes (W : World) (chat_id command : json) :
  writes_all (write_respects W) (handle_command W chat_id command).
Proof.
  unfold handle_command.
  repeat writes_step; apply reset_respects.
Qed.

Lemma handle_callback_query_writes (W : World) (callback_query : json) :
  writes_all (write_respects W) (handle_callback_query W callback_query).
Proof.
  unfold handle_callback_query.
  repeat writes_step; apply reset_respects.
Qed.

Lemma get_ai_response_writes (W : World) (message chat_id : json) :
  writes_all (write_respects W) (get_ai_response W message chat_id).
Proof.
  unfold get_ai_response.
  repeat writes_step.
  eapply advance_respects; eassumption.
Qed.

Lemma process_message_writes (W : World) (update : json) :
  writes_all (write_respects W) (process_message W update).
Proof.
  unfold process_message.
  repeat first
    [ apply handle_command_writes
    | apply handle_callback_query_writes
    | apply get_ai_response_writes
    | writes_step ].
Qed.

(** C2: every record that one run of the router -- and of the handler
    around it -- hands to the store obeys the agent-change rule with respect
    to the session loaded for that chat in the same run: if its agent
    differs from the loaded one, its continuation token is [None] and its
    message count is 0.  This covers /start, the new-dialog command, the
    agent-selection callback and the successful completion, the only places
    that write. *)
Theorem C2_agent_change_resets_context (W : World) :
  (forall update,
     Forall (write_respects W) (written (effects (process_message W update)))) /\
  (forall ev,
     Forall (write_respects W) (written (effects (handler W ev)))).
Proof.
  split.
  - intros update. apply process_message_writes.
  - intros ev. change (writes_all (write_respects W) (handler W ev)).
    unfold handler.
    destruct (body ev) as [[t | v] |];
      repeat first [ apply process_message_writes | writes_step ].
Qed.

(** The rule is not vacuous: a record for chat 42 that switches to agent a2
    and keeps the token t1 is rejected. *)
Lemma retained_token_violates_rule :
  ~ write_respects active_world
      ("dialogs/42.json", mk_state (JStr "t1") (JInt 3) (JStr "a2")).
Proof.
  intros (chat_id & loaded & Hkey & Hload & Hrule).
  simpl in Hkey.
  rewrite get_dialog_state_run in Hload. unfold loaded_state in Hload.
  rewrite <- Hkey in Hload. simpl in Hload.
  injection Hload as <-.
  destruct Hrule as [Htoken _]; [discriminate | discriminate Htoken].
Qed.


(** ** Scenarios *)

(** /start with registry [{"a1": "Helper"}] and no prior session: the
    session becomes [{None, 0, "a1"}] and the welcome message is sent. *)
Example scenario_start :
  process_message fresh_world (message_update (JInt 42) (JStr "/start")) =
    ([S3GetObject "dialogs/42.json";
      S3PutObject "dialogs/42.json" (mk_state JNull (JInt 0) (JStr "a1"));
      SendMessage (JInt 42) (start_text "Helper") (Some get_main_menu)],
     Ok (JObj [("ok", JBool true); ("action", JStr "start")])).
Proof. reflexivity. Qed.

(** Selecting a2 while a1 is current: the session becomes
    [{None, 0, "a2"}], the callback is acknowledged with the changed notice
    and message 7 is edited. *)
Example scenario_switch :
  process_message active_world
    (JObj [("callback_query",
            callback_query_of (JStr "cb1") (JStr "agent:a2") (JInt 42) (JInt 7))]) =
    ([S3GetObject "dialogs/42.json";
      S3PutObject "dialogs/42.json" (mk_state JNull (JInt 0) (JStr "a2"));
      AnswerCallbackQuery (JStr "cb1") (Some "✅ Агент изменён! Контекст сброшен.");
      EditMessageText (JInt 42) (JInt 7) (selected_text "Coder")
        (Some (get_agents_inline_keyboard active_world (JStr "a2")))],
     Ok (JObj [("ok", JBool true); ("action", JStr "agent_selected");
               ("agent_id", JStr "a2")])).
Proof. reflexivity. Qed.

(** Selecting the current agent again: nothing is written, the notice
    differs, the keyboard is rendered again. *)
Example scenario_reselect :
  process_message active_world
    (JObj [("callback_query",
            callback_query_of (JStr "cb1") (JStr "agent:a1") (JInt 42) (JInt 7))]) =
    ([S3GetObject "dialogs/42.json";
      AnswerCallbackQuery (JStr "cb1") (Some "ℹ️ Этот агент уже выбран");
      EditMessageText (JInt 42) (JInt 7) (selected_text "Helper")
        (Some (get_agents_inline_keyboard active_world (JStr "a1")))],
     Ok (JObj [("ok", JBool true); ("action", JStr "agent_selected");
               ("agent_id", JStr "a1")])).
Proof. reflexivity. Qed.

(** Free text on [{"t1", 3, "a1"}] with the client answering turn t2: the
    session becomes [{"t2", 4, "a1"}] and the reply is the output text. *)
Example scenario_turn :
  handler active_world
    (Event (Some (BodyValue (message_update (JInt 42) (JStr "hi"))))) =
    ([SendChatAction (JInt 42);
      S3GetObject "dialogs/42.json";
      ResponsesCreate (JStr "a1") (JStr "hi") (JStr "t1");
      S3PutObject "dialogs/42.json" (mk_state (JStr "t2") (JInt 4) (JStr "a1"));
      SendMessage (JInt 42) "Hello" (Some get_main_menu)],
     Ok (Envelope 200 [("Content-Type", "application/json")]
           (JObj [("ok", JBool true); ("message", JStr "Response sent")]))).
Proof. reflexivity. Qed.

(** A body that decodes to something other than an object ends in 500. *)
Example scenario_list_body :
  handler active_world (Event (Some (BodyStr (Encodes (JArr []))))) =
    ([], Ok (Envelope 500 [("Content-Type", "application/json")]
               (JObj [("ok", JBool false);
                      ("error", JStr "'list' object has no attribute 'get'")]))).
Proof. reflexivity. Qed.

(** * Further properties of the handler *)

(** ** Effects and results of composed computations *)

Lemma bind_lift_cases {A B : Type} (o : outcome A) (f : A -> M B) :
  bind (lift o) f =
    match o with
    | Ok a => f a
    | Raise e => ([], Raise e)
    end.
Proof. destruct o; [apply bind_lift_ok | reflexivity]. Qed.

Lemma effects_bind {A B : Type} (m : M A) (f : A -> M B) :
  effects (bind m f) =
    (effects m ++ match result m with
                  | Ok a => effects (f a)
                  | Raise _ => []
                  end)%list.
Proof.
  unfold bind, effects, result. destruct m as [l [a | e]]; simpl;
    [reflexivity | rewrite app_nil_r; reflexivity].
Qed.

Lemma result_bind {A B : Type} (m : M A) (f : A -> M B) :
  result (bind m f) =
    match result m with
    | Ok a => result (f a)
    | Raise e => Raise e
    end.
Proof. unfold bind, result. destruct m as [l [a | e]]; reflexivity. Qed.

Lemma effects_try_except {A : Type} (m : M A) (h : exn -> M A) :
  effects (try_except m h) =
    (effects m ++ match result m with
                  | Ok _ => []
                  | Raise e => effects (h e)
                  end)%list.
Proof.
  unfold try_except, effects, result. destruct m as [l [a | e]]; simpl;
    [rewrite app_nil_r; reflexivity | reflexivity].
Qed.

Lemma result_try_except {A : Type} (m : M A) (h : exn -> M A) :
  result (try_except m h) =
    match result m with
    | Ok a => Ok a
    | Raise e => result (h e)
    end.
Proof. unfold try_except, result. destruct m as [l [a | e]]; reflexivity. Qed.

Section Calls.

Context {A B : Type} (P : effect -> Prop).

Lemma calls_all_silent (m : M A) :
  effects m = [] -> calls_all P m.
Proof. unfold calls_all. intros ->. constructor. Qed.

Lemma calls_all_bind (m : M A) (f : A -> M B) :
  calls_all P m ->
  (forall a, result m = Ok a -> calls_all P (f a)) ->
  calls_all P (bind m f).
Proof.
  unfold calls_all. intros Hm Hf. rewrite effects_bind.
  apply Forall_app. split; [exact Hm |].
  destruct (result m) as [a | e] eqn:Hr; [apply Hf; reflexivity | constructor].
Qed.

Lemma calls_all_try (m : M A) (h : exn -> M A) :
  calls_all P m ->
  (forall e, calls_all P (h e)) ->
  calls_all P (try_except m h).
Proof.
  unfold calls_all. intros Hm Hh. rewrite effects_try_except.
  apply Forall_app. split; [exact Hm |].
  destruct (result m) as [a | e]; [constructor | apply Hh].
Qed.

End Calls.

Lemma calls_all_perform (P : effect -> Prop) (ev : effect) :
  P ev -> calls_all P (perform ev).
Proof. intros H. repeat constructor. exact H. Qed.

Lemma calls_all_load (P : effect -> Prop) (W : World) (chat_id : json) :
  P (S3GetObject (dialog_key W chat_id)) ->
  calls_all P (get_dialog_state W chat_id).
Proof.
  intros H. unfold calls_all. rewrite get_dialog_state_run.
  repeat constructor. exact H.
Qed.

Lemma calls_all_save (P : effect -> Prop) (W : World) (chat_id state : json) :
  P (S3PutObject (dialog_key W chat_id) state) ->
  (forall line, P (Print line)) ->
  calls_all P (save_dialog_state W chat_id state).
Proof.
  intros Hput Hprint. unfold calls_all.
  rewrite save_dialog_state_run. unfold effects, save_log. cbn [fst].
  destruct (s3_put_object W (dialog_key W chat_id) state);
    repeat constructor; auto.
Qed.

Ltac calls_step :=
  match goal with
  | |- calls_all _ (bind _ _) => apply calls_all_bind; [| intros ? ?]
  | |- calls_all _ (try_except _ _) => apply calls_all_try; [| intros ?]
  | |- calls_all _ (get_dialog_state _ _) => apply calls_all_load
  | |- calls_all _ (save_dialog_state _ _ _) => apply calls_all_save; [| intros ?]
  | |- calls_all _ (if ?b then _ else _) => destruct b
  | |- calls_all _ (ret _) => apply calls_all_silent; reflexivity
  | |- calls_all _ (lift _) => apply calls_all_silent; reflexivity
  | |- calls_all _ (send_telegram_message _ _ _) => apply calls_all_perform
  | |- calls_all _ (edit_message_text _ _ _ _) => apply calls_all_perform
  | |- calls_all _ (answer_callback_query _ _) => apply calls_all_perform
  | |- calls_all _ (send_typing_action _) => apply calls_all_perform
  | |- calls_all _ (perform _) => apply calls_all_perform
  end.

(** ** The outer boundary *)

(** X1: the handler never raises.  It answers 200 with the router's result
    when the body decodes and [process_message] returns, and 500 with the
    exception's message otherwise; in both cases the calls made are exactly
    those the router made before it ended. *)
Theorem handler_never_raises (W : World) (ev : event) :
  (exists r,
     result (handler W ev) = Ok r /\
     headers r = [("Content-Type", "application/json")] /\
     (statusCode r = 200 \/
      statusCode r = 500 /\
      exists e, resp_body r = JObj [("ok", JBool false); ("error", JStr (msg e))])) /\
  (forall update,
     decodes_to ev update ->
     effects (handler W ev) = effects (process_message W update) /\
     (forall res,
        result (process_message W update) = Ok res ->
        result (handler W ev) =
          Ok (Envelope 200 [("Content-Type", "application/json")] res)) /\
     (forall e,
        result (process_message W update) = Raise e ->
        result (handler W ev) =
          Ok (Envelope 500 [("Content-Type", "application/json")]
                (JObj [("ok", JBool false); ("error", JStr (msg e))])))).
Proof.
  split.
  - unfold handler. rewrite result_try_except, result_bind.
    destruct (result match body ev with
                     | Some (BodyStr t) => lift (json_loads t)
                     | Some (BodyValue v) => ret v
                     | None => ret (JObj [])
                     end) as [update | e].
    + rewrite result_bind.
      destruct (result (process_message W update)) as [res | e]; simpl;
        eexists; (split; [reflexivity |]); (split; [reflexivity |]);
        [left; reflexivity | right; split; [reflexivity | eexists; reflexivity]].
    + simpl. eexists. split; [reflexivity |]. split; [reflexivity |].
      right. split; [reflexivity | eexists; reflexivity].
  - intros update Hdec.
    rewrite (handler_decoded W ev update Hdec).
    rewrite effects_try_except, result_try_except, effects_bind, result_bind.
    destruct (result (process_message W update)) as [res | e]; simpl.
    + rewrite !app_nil_r. repeat split; intros; congruence.
    + rewrite !app_nil_r. repeat split; intros; congruence.
Qed.

Lemma X1_witness :
  effects (handler active_world
             (Event (Some (BodyValue (message_update (JInt 42) (JStr "/help")))))) =
    effects (process_message active_world (message_update (JInt 42) (JStr "/help"))).
Proof.
  apply (proj2 (handler_never_raises active_world
                  (Event (Some (BodyValue (message_update (JInt 42) (JStr "/help"))))))
           (message_update (JInt 42) (JStr "/help"))).
  right. left. reflexivity.
Defined.

(** ** Which updates reach the completion API *)

Lemma completions_none (l : list effect) :
  Forall no_completion l -> completions l = [].
Proof.
  induction 1 as [| ev l Hev _ IH]; [reflexivity |].
  destruct ev; simpl in *; try exact IH. contradiction.
Qed.

Ltac choose_branch H :=
  cbn [in_strs existsb eq_str String.eqb Ascii.eqb Bool.eqb orb andb] in H.

Ltac choose_branch_goal :=
  cbn [in_strs existsb eq_str String.eqb Ascii.eqb Bool.eqb orb andb].

Lemma handle_command_no_completion (W : World) (chat_id command : json) :
  calls_all no_completion (handle_command W chat_id command).
Proof.
  unfold handle_command.
  repeat calls_step; exact I.
Qed.

Lemma handle_callback_query_no_completion (W : World) (callback_query : json) :
  calls_all no_completion (handle_callback_query W callback_query).
Proof.
  unfold handle_callback_query.
  repeat calls_step; exact I.
Qed.

(** A recognised command never yields [None]: it returns its result
    record or raises. *)
Lemma handle_command_truthy (W : World) (chat_id command r : json) :
  is_command command = true ->
  result (handle_command W chat_id command) = Ok r ->
  truthy r = true.
Proof.
  intros Hcmd Hres.
  unfold is_command in Hcmd.
  pick_literal Hcmd;
    unfold handle_command in Hres; choose_branch Hres;
    repeat (rewrite result_bind in Hres;
            match type of Hres with
            | match ?o with Ok _ => _ | Raise _ => _ end = _ =>
                destruct o; [| discriminate Hres]
            end);
    injection Hres as <-; reflexivity.
Qed.

(** X2: a request to the completion API is made only for a message update
    with a truthy chat id and a truthy text that is none of the command
    literals; callback queries and commands never cause one. *)
Theorem completion_only_for_free_form (W : World) (update : json) :
  completions (effects (process_message W update)) <> [] ->
  exists chat_id text, free_form_message update chat_id text.
Proof.
  intros Hcalls.
  unfold process_message in Hcalls.
  rewrite bind_lift_cases in Hcalls.
  destruct (py_contains "callback_query" update) as [[|] | e] eqn:Hcb;
    [| | exfalso; apply Hcalls; reflexivity].
  { exfalso. apply Hcalls.
    rewrite bind_lift_cases.
    destruct (py_getitem update "callback_query"); [| reflexivity].
    apply completions_none. apply handle_callback_query_no_completion. }
  rewrite bind_lift_cases in Hcalls.
  destruct (py_get_default update "message" (JObj [])) as [message | e] eqn:Hmsg;
    [| exfalso; apply Hcalls; reflexivity].
  rewrite bind_lift_cases in Hcalls.
  destruct (py_get_default message "chat" (JObj [])) as [chat | e] eqn:Hchat;
    [| exfalso; apply Hcalls; reflexivity].
  rewrite bind_lift_cases in Hcalls.
  destruct (py_get chat "id") as [chat_id | e] eqn:Hid;
    [| exfalso; apply Hcalls; reflexivity].
  rewrite bind_lift_cases in Hcalls.
  destruct (py_get_default message "text" (JStr "")) as [text | e] eqn:Htext;
    [| exfalso; apply Hcalls; reflexivity].
  destruct (truthy chat_id) eqn:Tc; [| exfalso; apply Hcalls; reflexivity].
  destruct (truthy text) eqn:Tt; [| exfalso; apply Hcalls; reflexivity].
  cbn [negb orb] in Hcalls.
  destruct (is_command text) eqn:Hcmd.
  - exfalso. apply Hcalls.
    rewrite effects_bind, completions_app.
    rewrite (completions_none _ (handle_command_no_completion W chat_id text)).
    destruct (result (handle_command W chat_id text)) as [r | e] eqn:Hr;
      [| reflexivity].
    rewrite (handle_command_truthy W chat_id text r Hcmd Hr). reflexivity.
  - exists chat_id, text, message, chat. repeat split; assumption.
Qed.

Lemma X2_witness :
  exists chat_id text,
    free_form_message (message_update (JInt 42) (JStr "hi")) chat_id text.
Proof.
  apply (completion_only_for_free_form active_world
           (message_update (JInt 42) (JStr "hi"))).
  discriminate.
Defined.

(** ** One run, one chat *)

Lemma handle_command_addresses (W : World) (chat_id command : json) :
  calls_all (addresses W chat_id) (handle_command W chat_id command).
Proof.
  unfold handle_command.
  repeat calls_step; reflexivity.
Qed.

Lemma get_ai_response_addresses (W : World) (message chat_id : json) :
  calls_all (addresses W chat_id) (get_ai_response W message chat_id).
Proof.
  unfold get_ai_response.
  repeat calls_step; reflexivity.
Qed.

Ltac open_lift :=
  rewrite bind_lift_cases;
  match goal with
  | |- context [match ?o with Ok _ => _ | Raise _ => _ end] =>
      destruct o; [| exists JNull; constructor]
  end.

Lemma handle_callback_query_addresses (W : World) (callback_query : json) :
  exists chat_id,
    calls_all (addresses W chat_id) (handle_callback_query W callback_query).
Proof.
  unfold handle_callback_query.
  open_lift. open_lift. open_lift. open_lift.
  rewrite bind_lift_cases.
  destruct (py_get _ "id") as [chat_id |]; [| exists JNull; constructor].
  exists chat_id.
  repeat calls_step; reflexivity.
Qed.

(** X3: all the calls of one run concern one chat: there is a chat id such
    that every read and write of the store uses that chat's key and every
    message, edit and typing indicator goes to that chat. *)
Theorem run_concerns_one_chat (W : World) :
  (forall update,
     exists chat_id,
       Forall (addresses W chat_id) (effects (process_message W update))) /\
  (forall ev,
     exists chat_id,
       Forall (addresses W chat_id) (effects (handler W ev))).
Proof.
  assert (Hrouter : forall update,
             exists chat_id,
               calls_all (addresses W chat_id) (process_message W update)).
  { intros update. unfold process_message.
    rewrite bind_lift_cases.
    destruct (py_contains "callback_query" update) as [[|] |];
      [| | exists JNull; constructor].
    - open_lift. apply handle_callback_query_addresses.
    - open_lift. open_lift.
      rewrite bind_lift_cases.
      destruct (py_get _ "id") as [chat_id |]; [| exists JNull; constructor].
      exists chat_id.
      repeat first
        [ apply handle_command_addresses
        | apply get_ai_response_addresses
        | calls_step ]; reflexivity. }
  split; [exact Hrouter |].
  intros ev. unfold handler.
  destruct (body ev) as [[[raw error | update] | update] |].
  - exists JNull. constructor.
  - destruct (Hrouter update) as [chat_id H]. exists chat_id.
    change (calls_all (addresses W chat_id)
              (try_except
                 (update0 <- lift (Ok update);;
                  result0 <- process_message W update0;;
                  ret (Envelope 200 [("Content-Type", "application/json")] result0))
                 (fun e =>
                    ret (Envelope 500 [("Content-Type", "application/json")]
                           (JObj [("ok", JBool false); ("error", JStr (msg e))]))))).
    rewrite bind_lift_ok.
    repeat first [ exact H | calls_step ].
  - destruct (Hrouter update) as [chat_id H]. exists chat_id.
    change (calls_all (addresses W chat_id)
              (try_except
                 (update0 <- ret update;;
                  result0 <- process_message W update0;;
                  ret (Envelope 200 [("Content-Type", "application/json")] result0))
                 (fun e =>
                    ret (Envelope 500 [("Content-Type", "application/json")]
                           (JObj [("ok", JBool false); ("error", JStr (msg e))]))))).
    rewrite bind_ret.
    repeat first [ exact H | calls_step ].
  - destruct (Hrouter (JObj [])) as [chat_id H]. exists chat_id.
    change (calls_all (addresses W chat_id)
              (try_except
                 (update0 <- ret (JObj []);;
                  result0 <- process_message W update0;;
                  ret (Envelope 200 [("Content-Type", "application/json")] result0))
                 (fun e =>
                    ret (Envelope 500 [("Content-Type", "application/json")]
                           (JObj [("ok", JBool false); ("error", JStr (msg e))]))))).
    rewrite bind_ret.
    repeat first [ exact H | calls_step ].
Qed.

(** ** How many calls a run makes *)

Lemma count_if_app (p : effect -> bool) (l1 l2 : list effect) :
  count_if p (l1 ++ l2) = (count_if p l1 + count_if p l2)%nat.
Proof. unfold count_if. rewrite filter_app, length_app. reflexivity. Qed.

Section AtMost.

Context {A B : Type} (p : effect -> bool).

Lemma at_most_bind_l (n : nat) (m : M A) (f : A -> M B) :
  at_most p 0 m ->
  (forall a, result m = Ok a -> at_most p n (f a)) ->
  at_most p n (bind m f).
Proof.
  unfold at_most. intros Hm Hf. rewrite effects_bind, count_if_app.
  destruct (result m) as [a | e] eqn:Hr.
  - specialize (Hf a eq_refl). lia.
  - unfold count_if at 2. simpl. lia.
Qed.

Lemma at_most_bind_r (n : nat) (m : M A) (f : A -> M B) :
  at_most p n m ->
  (forall a, result m = Ok a -> at_most p 0 (f a)) ->
  at_most p n (bind m f).
Proof.
  unfold at_most. intros Hm Hf. rewrite effects_bind, count_if_app.
  destruct (result m) as [a | e] eqn:Hr.
  - specialize (Hf a eq_refl). lia.
  - unfold count_if at 2. simpl. lia.
Qed.

Lemma at_most_try_l (n : nat) (m : M A) (h : exn -> M A) :
  at_most p 0 m ->
  (forall e, at_most p n (h e)) ->
  at_most p n (try_except m h).
Proof.
  unfold at_most. intros Hm Hh. rewrite effects_try_except, count_if_app.
  destruct (result m) as [a | e].
  - unfold count_if at 2. simpl. lia.
  - specialize (Hh e). lia.
Qed.

Lemma at_most_try_r (n : nat) (m : M A) (h : exn -> M A) :
  at_most p n m ->
  (forall e, at_most p 0 (h e)) ->
  at_most p n (try_except m h).
Proof.
  unfold at_most. intros Hm Hh. rewrite effects_try_except, count_if_app.
  destruct (result m) as [a | e].
  - unfold count_if at 2. simpl. lia.
  - specialize (Hh e). lia.
Qed.

End AtMost.

Ltac at_most_leaf :=
  unfold at_most;
  rewrite ?get_dialog_state_run, ?save_dialog_state_run;
  unfold effects, save_log, count_if; cbn [fst];
  repeat match goal with
         | |- context [s3_put_object ?W ?k ?s] => destruct (s3_put_object W k s)
         end;
  simpl; lia.

Ltac at_most_solve :=
  lazymatch goal with
  | |- at_most _ _ (if ?b then _ else _) => destruct b; at_most_solve
  | |- at_most ?p ?n (bind (handle_command ?W ?c ?t) _) =>
      let Hcmd := fresh "Hcmd" in
      destruct (is_command t) eqn:Hcmd;
      [ apply (at_most_bind_r p n);
        [ unfold handle_command; at_most_solve
        | let r := fresh "r" in
          let Hr := fresh "Hr" in
          intros r Hr;
          rewrite (handle_command_truthy W c t r Hcmd Hr); at_most_leaf ]
      | rewrite (handle_command_no_command W c t Hcmd), bind_ret;
        cbn [truthy]; at_most_solve ]
  | |- at_most ?p ?n (bind _ _) =>
      tryif (apply (at_most_bind_l p n); [solve [at_most_solve] |])
      then (intros ? ?; at_most_solve)
      else (apply (at_most_bind_r p n);
            [ at_most_solve | intros ? ?; at_most_solve ])
  | |- at_most ?p ?n (try_except _ _) =>
      tryif (apply (at_most_try_l p n); [solve [at_most_solve] |])
      then (intros ?; at_most_solve)
      else (apply (at_most_try_r p n);
            [ at_most_solve | intros ?; at_most_solve ])
  | |- at_most _ _ (get_ai_response _ _ _) => unfold get_ai_response; at_most_solve
  | |- at_most _ _ (handle_callback_query _ _) =>
      unfold handle_callback_query; at_most_solve
  | |- at_most _ _ (process_message _ _) => unfold process_message; at_most_solve
  | |- _ => at_most_leaf
  end.

Lemma process_message_at_most (k : kind) (W : World) (update : json) :
  at_most (is_kind k) 1 (process_message W update).
Proof. destruct k; at_most_solve. Qed.

(** X4: one run of the handler makes at most one call of each kind: at
    most one read and one write of the store, one request to the completion
    API, one message sent or edited, one callback acknowledgement, one
    typing indicator and one log line. *)
Theorem handler_calls_at_most_once (W : World) (ev : event) (k : kind) :
  (count_if (is_kind k) (effects (handler W ev)) <= 1)%nat.
Proof.
  change (at_most (is_kind k) 1 (handler W ev)).
  unfold handler.
  apply at_most_try_r; [| intros e; at_most_leaf].
  apply at_most_bind_l.
  - destruct (body ev) as [[[raw error | update] | update] |]; at_most_leaf.
  - intros update _.
    apply at_most_bind_r; [apply process_message_at_most |].
    intros res _. at_most_leaf.
Qed.

(** ** Free-form messages *)

Lemma deliveries_count (l : list effect) :
  length (deliveries l) = count_if (is_kind KDelivery) l.
Proof.
  unfold count_if.
  induction l as [| ev l IH]; [reflexivity |].
  destruct ev; simpl; rewrite ?IH; reflexivity.
Qed.

Lemma get_ai_response_sends_nothing (W : World) (message chat_id : json) :
  deliveries (effects (get_ai_response W message chat_id)) = [].
Proof.
  apply length_zero_iff_nil. rewrite deliveries_count.
  assert (H : at_most (is_kind KDelivery) 0 (get_ai_response W message chat_id))
    by at_most_solve.
  unfold at_most in H. lia.
Qed.

(** X5: every free-form message gets exactly one reply.  Whatever the store
    and the completion API do, [process_message] returns its
    [Response sent] result and the only message it sends is the string
    [get_ai_response] returned, with the main menu attached. *)
Theorem free_form_gets_one_reply (W : World) (update chat_id text : json) :
  free_form_message update chat_id text ->
  exists reply,
    result (get_ai_response W text chat_id) = Ok reply /\
    deliveries (effects (process_message W update)) =
      [SendMessage chat_id reply (Some get_main_menu)] /\
    result (process_message W update) =
      Ok (JObj [("ok", JBool true); ("message", JStr "Response sent")]).
Proof.
  intros Hfree.
  destruct (get_ai_response_total W text chat_id) as [reply Hreply].
  exists reply. split; [exact Hreply |].
  rewrite (process_message_free_form W update chat_id text Hfree).
  rewrite Hreply. unfold effects at 1, result at 1. cbn [fst snd].
  split; [| reflexivity].
  rewrite deliveries_app. cbn [deliveries].
  rewrite get_ai_response_sends_nothing. reflexivity.
Qed.

Lemma X5_witness :
  exists reply,
    result (get_ai_response empty_world (JStr "hi") (JInt 42)) = Ok reply /\
    deliveries (effects (process_message empty_world
                           (message_update (JInt 42) (JStr "hi")))) =
      [SendMessage (JInt 42) reply (Some get_main_menu)] /\
    result (process_message empty_world (message_update (JInt 42) (JStr "hi"))) =
      Ok (JObj [("ok", JBool true); ("message", JStr "Response sent")]).
Proof.
  apply (free_form_gets_one_reply empty_world
           (message_update (JInt 42) (JStr "hi")) (JInt 42) (JStr "hi")).
  exists (JObj [("chat", JObj [("id", JInt 42)]); ("text", JStr "hi")]).
  exists (JObj [("id", JInt 42)]).
  repeat split; reflexivity.
Defined.

(** X6: a store that rejects the write does not cost the user the reply.
    On a successful completion turn whose [put_object] raises, the failure
    is printed and nothing else changes: the output text is sent and the
    router returns normally. *)
Theorem failed_write_keeps_reply (W : World) (update message chat_id : json)
    (items : list (string * json)) (agent_id : json) (n : Z) (r : response)
    (e : exn) :
  free_form_message update chat_id message ->
  result (get_dialog_state W chat_id) = Ok (JObj items) ->
  assoc "agent_id" items = Some agent_id ->
  truthy agent_id = true ->
  assoc "message_count" items = Some (JInt n) ->
  responses_create W agent_id message (field (JObj items) "previous_response_id") = Ok r ->
  s3_put_object W (dialog_key W chat_id)
    (mk_state (JStr (id r)) (JInt (n + 1)) agent_id) = Raise e ->
  process_message W update =
    ([SendChatAction chat_id;
      S3GetObject (dialog_key W chat_id);
      ResponsesCreate agent_id message (field (JObj items) "previous_response_id");
      S3PutObject (dialog_key W chat_id)
        (mk_state (JStr (id r)) (JInt (n + 1)) agent_id);
      Print ("Error saving state: " ++ msg e);
      SendMessage chat_id (output_text r) (Some get_main_menu)],
     Ok (JObj [("ok", JBool true); ("message", JStr "Response sent")])).
Proof.
  intros Hfree Hload Hagent Ta Hcount Hai Hput.
  apply loaded_of_result in Hload.
  destruct (responses_create_client _ _ _ _ _ Hai) as [client Hclient].
  rewrite (process_message_free_form W update chat_id message Hfree).
  rewrite (get_ai_response_run W message chat_id items client Hclient Hload).
  cbv zeta.
  replace (field (JObj items) "agent_id") with agent_id
    by (unfold field, py_get, py_get_default; rewrite Hagent; reflexivity).
  rewrite Ta, Hai, Hcount. cbn [negb py_add_one].
  unfold save_log. rewrite Hput. reflexivity.
Qed.

(** X7: the completion request is made before the message count is
    incremented.  When the stored count is a value that [+ 1] rejects (such
    as [None] or a string), the request has been made, yet nothing is
    written and the reply is the error text, not the output text. *)
Theorem bad_count_loses_turn (W : World) (message chat_id : json)
    (items : list (string * json)) (agent_id count : json) (r : response)
    (e : exn) :
  result (get_dialog_state W chat_id) = Ok (JObj items) ->
  assoc "agent_id" items = Some agent_id ->
  truthy agent_id = true ->
  assoc "message_count" items = Some count ->
  py_add_one count = Raise e ->
  responses_create W agent_id message (field (JObj items) "previous_response_id") = Ok r ->
  get_ai_response W message chat_id =
    ([S3GetObject (dialog_key W chat_id);
      ResponsesCreate agent_id message (field (JObj items) "previous_response_id")],
     Ok ("❌ Ошибка: " ++ msg e)).
Proof.
  intros Hload Hagent Ta Hcount Hadd Hai.
  apply loaded_of_result in Hload.
  destruct (responses_create_client _ _ _ _ _ Hai) as [client Hclient].
  rewrite (get_ai_response_run W message chat_id items client Hclient Hload).
  cbv zeta.
  replace (field (JObj items) "agent_id") with agent_id
    by (unfold field, py_get, py_get_default; rewrite Hagent; reflexivity).
  rewrite Ta, Hai, Hcount, Hadd. reflexivity.
Qed.

Lemma X6_witness :
  process_message read_only_world (message_update (JInt 42) (JStr "hi")) =
    ([SendChatAction (JInt 42);
      S3GetObject "dialogs/42.json";
      ResponsesCreate (JStr "a1") (JStr "hi") (JStr "t1");
      S3PutObject "dialogs/42.json" (mk_state (JStr "t2") (JInt 4) (JStr "a1"));
      Print "Error saving state: AccessDenied";
      SendMessage (JInt 42) "Hello" (Some get_main_menu)],
     Ok (JObj [("ok", JBool true); ("message", JStr "Response sent")])).
Proof.
  apply (failed_write_keeps_reply read_only_world
           (message_update (JInt 42) (JStr "hi")) (JStr "hi") (JInt 42)
           [("previous_response_id", JStr "t1"); ("message_count", JInt 3);
            ("agent_id", JStr "a1")]
           (JStr "a1") 3 (Response "t2" "Hello") (Exn ClientError "AccessDenied")).
  - exists (JObj [("chat", JObj [("id", JInt 42)]); ("text", JStr "hi")]).
    exists (JObj [("id", JInt 42)]).
    repeat split; reflexivity.
  - reflexivity.
  - reflexivity.
  - reflexivity.
  - reflexivity.
  - reflexivity.
  - reflexivity.
Defined.

Lemma X7_witness :
  get_ai_response null_count_world (JStr "hi") (JInt 42) =
    ([S3GetObject "dialogs/42.json";
      ResponsesCreate (JStr "a1") (JStr "hi") (JStr "t1")],
     Ok "❌ Ошибка: unsupported operand type(s) for +: 'NoneType' and 'int'").
Proof.
  apply (bad_count_loses_turn null_count_world (JStr "hi") (JInt 42)
           [("previous_response_id", JStr "t1"); ("message_count", JNull);
            ("agent_id", JStr "a1")]
           (JStr "a1") JNull (Response "t2" "Hello")
           (Exn TypeError "unsupported operand type(s) for +: 'NoneType' and 'int'"));
    reflexivity.
Defined.

(** ** A stored value that is not a record *)

Lemma get_raises_alike (v : json) (k : string) (default : json) (e : exn) :
  py_get v "agent_id" = Raise e ->
  py_get_default v k default = Raise e.
Proof.
  destruct v; simpl; try (intros H; exact H).
  unfold py_get, py_get_default. destruct (assoc "agent_id" items); discriminate.
Qed.

(** X8: a stored object that decodes to something other than a [dict]
    blocks the chat and is never overwritten from the chat.  A free-form
    message causes neither a completion request nor a write, and with a
    client that was built it is answered with the error text of the failed
    access; /start, the new-dialog, agents-list and status commands raise
    right after the read, before anything is written or sent. *)
Theorem non_record_blocks_chat (W : World) (chat_id v : json) (e : exn) :
  result (get_dialog_state W chat_id) = Ok v ->
  py_get v "agent_id" = Raise e ->
  (forall message,
     completions (effects (get_ai_response W message chat_id)) = [] /\
     written (effects (get_ai_response W message chat_id)) = []) /\
  (forall client message,
     get_ai_client W = Ok client ->
     get_ai_response W message chat_id =
       ([S3GetObject (dialog_key W chat_id)], Ok ("❌ Ошибка: " ++ msg e))) /\
  (forall command,
     in_strs command ["/start"; "🆕 Новый диалог"; "/new"; "🤖 Агенты"; "/agents";
                      "/status"; "📊 Статус"] = true ->
     handle_command W chat_id command =
       ([S3GetObject (dialog_key W chat_id)], Raise e)).
Proof.
  intros Hload Hget. apply loaded_of_result in Hload.
  assert (Hbuilt : forall client message,
             get_ai_client W = Ok client ->
             get_ai_response W message chat_id =
               ([S3GetObject (dialog_key W chat_id)],
                Ok ("❌ Ошибка: " ++ msg e))).
  { intros client message Hclient. unfold get_ai_response.
    rewrite Hclient, bind_lift_ok, get_dialog_state_run, Hload, bind_pair_ok, Hget.
    reflexivity. }
  split; [| split].
  - intros message.
    destruct (get_ai_client W) as [client | e'] eqn:Hclient.
    + rewrite (Hbuilt client message eq_refl). split; reflexivity.
    + rewrite (get_ai_response_no_client W message chat_id e' Hclient).
      split; reflexivity.
  - exact Hbuilt.
  - intros command Hcmd.
    subst v.
    pick_literal Hcmd; unfold handle_command; choose_branch_goal;
      rewrite get_dialog_state_run, bind_pair_ok;
      rewrite ?(get_raises_alike _ "message_count" (JInt 0) e Hget), ?Hget;
      reflexivity.
Qed.

Lemma X8_witness :
  get_ai_response list_record_world (JStr "hi") (JInt 42) =
    ([S3GetObject "dialogs/42.json"],
     Ok "❌ Ошибка: 'list' object has no attribute 'get'") /\
  handle_command list_record_world (JInt 42) (JStr "/new") =
    ([S3GetObject "dialogs/42.json"],
     Raise (Exn AttributeError "'list' object has no attribute 'get'")).
Proof.
  destruct (non_record_blocks_chat list_record_world (JInt 42) (JArr [])
              (Exn AttributeError "'list' object has no attribute 'get'")
              eq_refl eq_refl) as (_ & Hfree & Hcmd).
  split.
  - apply (Hfree (fun _ _ _ => Ok (Response "t2" "Hello"))). reflexivity.
  - apply Hcmd. reflexivity.
Defined.

(** ** The start command *)

(** [handle_command] on /start, for a session that loaded as a [dict] and
    an agent whose name lookup returns. *)
Lemma handle_command_start (W : World) (chat_id : json)
    (items : list (string * json)) (agent_id : json) (agent_name : string) :
  loaded_state W chat_id = JObj items ->
  agent_id =
    (if negb (truthy (field (JObj items) "agent_id")) &&
        negb (length (get_agents W) =? 0)%nat
     then default_agent (get_agents W)
     else field (JObj items) "agent_id") ->
  agent_name_of (get_agents W) agent_id = Ok agent_name ->
  handle_command W chat_id (JStr "/start") =
    ((S3GetObject (dialog_key W chat_id) ::
        save_log W chat_id (mk_state JNull (JInt 0) agent_id)) ++
       [SendMessage chat_id (start_text agent_name) (Some get_main_menu)],
     Ok (JObj [("ok", JBool true); ("action", JStr "start")]))%list.
Proof.
  intros Hload Hagent Hname.
  unfold handle_command. choose_branch_goal.
  rewrite get_dialog_state_run, Hload, bind_pair_ok.
  unfold field, py_get, py_get_default in *.
  destruct (assoc "agent_id" items) as [loaded_agent |];
    rewrite bind_lift_ok, <- Hagent, save_dialog_state_run, bind_pair_ok,
      Hname, bind_lift_ok;
    unfold effects, result; cbn [fst snd];
    reflexivity.
Qed.



(** ** Commands that only read *)

Lemma written_none {A : Type} (m : M A) :
  writes_all (fun _ => False) m -> written (effects m) = [].
Proof.
  unfold writes_all. intros H.
  destruct (written (effects m)) as [| w l]; [reflexivity |].
  inversion H; contradiction.
Qed.

(** X10: the agents-list, status and help commands never write the
    session and never call the completion API, whatever the store holds;
    help does not touch the store at all. *)
Theorem read_only_commands (W : World) (chat_id command : json) :
  in_strs command ["🤖 Агенты"; "/agents"; "/status"; "📊 Статус";
                   "/help"; "❓ Помощь"] = true ->
  written (effects (handle_command W chat_id command)) = [] /\
  completions (effects (handle_command W chat_id command)) = [] /\
  (in_strs command ["/help"; "❓ Помощь"] = true ->
   handle_command W chat_id command =
     ([SendMessage chat_id help_text (Some get_main_menu)],
      Ok (JObj [("ok", JBool true); ("action", JStr "help")]))).
Proof.
  intros Hcmd.
  split; [| split].
  - apply written_none.
    pick_literal Hcmd; unfold handle_command; choose_branch_goal;
      repeat writes_step.
  - apply completions_none. apply handle_command_no_completion.
  - clear Hcmd. intros Hhelp.
    pick_literal Hhelp; reflexivity.
Qed.

Lemma X10_witness :
  written (effects (handle_command active_world (JInt 42) (JStr "/status"))) = [] /\
  completions (effects (handle_command active_world (JInt 42) (JStr "/status"))) = [].
Proof.
  destruct (read_only_commands active_world (JInt 42) (JStr "/status") eq_refl)
    as (Hw & Hc & _).
  split; [exact Hw | exact Hc].
Defined.

(** ** Agent selection *)

(** X11: selecting an agent that is not in the registry changes nothing.
    The store is neither read nor written and no message is edited; the
    callback is acknowledged with the not-found notice, the result says
    [ok: False], and the webhook still answers 200. *)
Theorem unknown_agent_changes_nothing (W : World) (ev : event)
    (update callback_query callback_id chat_id message_id : json)
    (agent_id : string) :
  decodes_to ev update ->
  py_contains "callback_query" update = Ok true ->
  py_getitem update "callback_query" = Ok callback_query ->
  callback_fields callback_query callback_id (JStr ("agent:" ++ agent_id))
    chat_id message_id ->
  truthy chat_id = true ->
  has_key agent_id (get_agents W) = false ->
  handler W ev =
    ([AnswerCallbackQuery callback_id (Some "❌ Агент не найден")],
     Ok (Envelope 200 [("Content-Type", "application/json")]
           (JObj [("ok", JBool false); ("message", JStr "Agent not found")]))).
Proof.
  intros Hdec Hin Hget Hfields Tc Hreg.
  apply (handler_ok W ev update); [exact Hdec |].
  rewrite (process_message_callback W update callback_query Hin Hget).
  apply (handle_callback_query_not_found W callback_query callback_id chat_id
           message_id agent_id Hfields Tc Hreg).
Qed.

Lemma X11_witness :
  handler active_world
    (Event (Some (BodyValue
       (JObj [("callback_query",
               callback_query_of (JStr "cb1") (JStr "agent:zz") (JInt 42) (JInt 7))])))) =
    ([AnswerCallbackQuery (JStr "cb1") (Some "❌ Агент не найден")],
     Ok (Envelope 200 [("Content-Type", "application/json")]
           (JObj [("ok", JBool false); ("message", JStr "Agent not found")]))).
Proof.
  apply (unknown_agent_changes_nothing active_world
           (Event (Some (BodyValue
              (JObj [("callback_query",
                      callback_query_of (JStr "cb1") (JStr "agent:zz") (JInt 42) (JInt 7))]))))
           (JObj [("callback_query",
                   callback_query_of (JStr "cb1") (JStr "agent:zz") (JInt 42) (JInt 7))])
           (callback_query_of (JStr "cb1") (JStr "agent:zz") (JInt 42) (JInt 7))
           (JStr "cb1") (JInt 42) (JInt 7) "zz").
  - right. left. reflexivity.
  - reflexivity.
  - reflexivity.
  - exists (JObj [("chat", JObj [("id", JInt 42)]); ("message_id", JInt 7)]).
    exists (JObj [("id", JInt 42)]).
    repeat split; reflexivity.
  - reflexivity.
  - reflexivity.
Defined.

(** X12: selecting the agent that is already selected is idempotent: the
    store is read but not written, so token and count survive; the
    acknowledgement says the agent is already selected; the message is
    edited to show the same keyboard a switch would show. *)
Theorem reselect_is_idempotent (W : World)
    (callback_query callback_id chat_id message_id : json)
    (agent_id agent_name : string) (items : list (string * json)) :
  callback_fields callback_query callback_id (JStr ("agent:" ++ agent_id))
    chat_id message_id ->
  truthy chat_id = true ->
  assoc agent_id (get_agents W) = Some agent_name ->
  result (get_dialog_state W chat_id) = Ok (JObj items) ->
  field (JObj items) "agent_id" = JStr agent_id ->
  handle_callback_query W callback_query =
    ([S3GetObject (dialog_key W chat_id);
      AnswerCallbackQuery callback_id (Some "ℹ️ Этот агент уже выбран");
      EditMessageText chat_id message_id (selected_text agent_name)
        (Some (get_agents_inline_keyboard W (JStr agent_id)))],
     Ok (JObj [("ok", JBool true); ("action", JStr "agent_selected");
               ("agent_id", JStr agent_id)])).
Proof.
  intros Hfields Tc Hname Hload Hsame.
  apply loaded_of_result in Hload.
  rewrite (handle_callback_query_select W callback_query callback_id chat_id
             message_id agent_id agent_name items Hfields Tc Hname Hload).
  rewrite Hsame. simpl eq_str. rewrite String.eqb_refl. reflexivity.
Qed.

Lemma X12_witness :
  handle_callback_query active_world
    (callback_query_of (JStr "cb1") (JStr "agent:a1") (JInt 42) (JInt 7)) =
    ([S3GetObject "dialogs/42.json";
      AnswerCallbackQuery (JStr "cb1") (Some "ℹ️ Этот агент уже выбран");
      EditMessageText (JInt 42) (JInt 7) (selected_text "Helper")
        (Some (get_agents_inline_keyboard active_world (JStr "a1")))],
     Ok (JObj [("ok", JBool true); ("action", JStr "agent_selected");
               ("agent_id", JStr "a1")])).
Proof.
  apply (reselect_is_idempotent active_world
           (callback_query_of (JStr "cb1") (JStr "agent:a1") (JInt 42) (JInt 7))
           (JStr "cb1") (JInt 42) (JInt 7) "a1" "Helper"
           [("previous_response_id", JStr "t1"); ("message_count", JInt 3);
            ("agent_id", JStr "a1")]).
  - exists (JObj [("chat", JObj [("id", JInt 42)]); ("message_id", JInt 7)]).
    exists (JObj [("id", JInt 42)]).
    repeat split; reflexivity.
  - reflexivity.
  - reflexivity.
  - reflexivity.
  - reflexivity.
Defined.

Lemma assoc_of_In {A : Type} (k : string) (v : A) (items : list (string * A)) :
  In (k, v) items -> exists v', assoc k items = Some v'.
Proof.
  induction items as [| [k' v'] items IH]; [contradiction |].
  intros [Heq | Hin]; simpl.
  - injection Heq as -> ->. rewrite String.eqb_refl. eauto.
  - destruct (k' =? k)%string; [eauto | apply IH; exact Hin].
Qed.

(** X13: every button of the rendered keyboard works when pressed.  The
    callback data of a button has the form [agent:<id>] for a registry entry
    [<id>], also when the id itself contains colons, and a callback query
    carrying that data is never answered [Agent not found]: it ends with the
    [agent_selected] result for that id, and if it writes, it writes that id. *)
Theorem rendered_button_selects_its_agent (W : World)
    (current callback_query callback_id chat_id message_id label data : json)
    (buttons : list json) (items : list (string * json)) :
  get_agents_inline_keyboard W current = JObj [("inline_keyboard", JArr buttons)] ->
  In (JArr [JObj [("text", label); ("callback_data", data)]]) buttons ->
  callback_fields callback_query callback_id data chat_id message_id ->
  truthy chat_id = true ->
  result (get_dialog_state W chat_id) = Ok (JObj items) ->
  exists agent_id agent_name,
    In (agent_id, agent_name) (get_agents W) /\
    data = JStr ("agent:" ++ agent_id) /\
    result (handle_callback_query W callback_query) =
      Ok (JObj [("ok", JBool true); ("action", JStr "agent_selected");
                ("agent_id", JStr agent_id)]) /\
    forall w,
      In w (written (effects (handle_callback_query W callback_query))) ->
      w = (dialog_key W chat_id, mk_state JNull (JInt 0) (JStr agent_id)).
Proof.
  intros Hkb Hin Hfields Tc Hload.
  apply loaded_of_result in Hload.
  unfold get_agents_inline_keyboard in Hkb. injection Hkb as <-.
  apply in_map_iff in Hin. destruct Hin as ([agent_id agent_name] & Hbutton & Hentry).
  unfold agent_button in Hbutton. injection Hbutton as _ <-.
  destruct (assoc_of_In agent_id agent_name (get_agents W) Hentry) as [name Hname].
  exists agent_id, agent_name.
  split; [exact Hentry |]. split; [reflexivity |].
  rewrite (handle_callback_query_select W callback_query callback_id chat_id
             message_id agent_id name items Hfields Tc Hname Hload).
  split; [reflexivity |].
  intros w Hw. unfold effects in Hw. cbn [fst] in Hw.
  destruct (eq_str (field (JObj items) "agent_id") agent_id).
  - simpl in Hw. contradiction.
  - rewrite written_app in Hw. cbn [written] in Hw.
    rewrite written_app, written_save_log in Hw. simpl in Hw.
    destruct Hw as [<- | []]. reflexivity.
Qed.

Lemma X13_witness :
  exists agent_id agent_name,
    In (agent_id, agent_name) (get_agents active_world) /\
    JStr "agent:a2" = JStr ("agent:" ++ agent_id) /\
    result (handle_callback_query active_world
              (callback_query_of (JStr "cb1") (JStr "agent:a2") (JInt 42) (JInt 7))) =
      Ok (JObj [("ok", JBool true); ("action", JStr "agent_selected");
                ("agent_id", JStr agent_id)]) /\
    forall w,
      In w (written (effects (handle_callback_query active_world
                                (callback_query_of (JStr "cb1") (JStr "agent:a2")
                                   (JInt 42) (JInt 7))))) ->
      w = (dialog_key active_world (JInt 42),
           mk_state JNull (JInt 0) (JStr agent_id)).
Proof.
  apply (rendered_button_selects_its_agent active_world (JStr "a1")
           (callback_query_of (JStr "cb1") (JStr "agent:a2") (JInt 42) (JInt 7))
           (JStr "cb1") (JInt 42) (JInt 7) (JStr "Coder") (JStr "agent:a2")
           [JArr [JObj [("text", JStr "✅ Helper"); ("callback_data", JStr "agent:a1")]];
            JArr [JObj [("text", JStr "Coder"); ("callback_data", JStr "agent:a2")]]]
           [("previous_response_id", JStr "t1"); ("message_count", JInt 3);
            ("agent_id", JStr "a1")]).
  - reflexivity.
  - right. left. reflexivity.
  - exists (JObj [("chat", JObj [("id", JInt 42)]); ("message_id", JInt 7)]).
    exists (JObj [("id", JInt 42)]).
    repeat split; reflexivity.
  - reflexivity.
  - reflexivity.
Defined.

(** ** Updates that are ignored or rejected *)

(** X14: a message update from which no truthy chat id or no truthy text
    can be read -- a photo, a sticker, an empty text -- is ignored: nothing
    is called and the webhook answers 200 with [No message to process]. *)
Theorem message_without_text_is_ignored (W : World) (ev : event)
    (update message chat chat_id text : json) :
  decodes_to ev update ->
  py_contains "callback_query" update = Ok false ->
  py_get_default update "message" (JObj []) = Ok message ->
  py_get_default message "chat" (JObj []) = Ok chat ->
  py_get chat "id" = Ok chat_id ->
  py_get_default message "text" (JStr "") = Ok text ->
  truthy chat_id = false \/ truthy text = false ->
  handler W ev =
    ([], Ok (Envelope 200 [("Content-Type", "application/json")]
               (JObj [("ok", JBool true);
                      ("message", JStr "No message to process")]))).
Proof.
  intros Hdec Hcb Hmsg Hchat Hid Htext Hfalsy.
  apply (handler_ok W ev update); [exact Hdec |].
  unfold process_message.
  read Hcb. read Hmsg. read Hchat. read Hid. read Htext.
  destruct Hfalsy as [H | H]; rewrite H; [| rewrite orb_true_r]; reflexivity.
Qed.

Lemma X14_witness :
  handler active_world
    (Event (Some (BodyValue
       (JObj [("message",
               JObj [("chat", JObj [("id", JInt 42)]);
                     ("photo", JArr [JObj [("file_id", JStr "f1")]])])])))) =
    ([], Ok (Envelope 200 [("Content-Type", "application/json")]
               (JObj [("ok", JBool true);
                      ("message", JStr "No message to process")]))).
Proof.
  apply (message_without_text_is_ignored active_world
           (Event (Some (BodyValue
              (JObj [("message",
                      JObj [("chat", JObj [("id", JInt 42)]);
                            ("photo", JArr [JObj [("file_id", JStr "f1")]])])]))))
           (JObj [("message",
                   JObj [("chat", JObj [("id", JInt 42)]);
                         ("photo", JArr [JObj [("file_id", JStr "f1")]])])])
           (JObj [("chat", JObj [("id", JInt 42)]);
                  ("photo", JArr [JObj [("file_id", JStr "f1")]])])
           (JObj [("id", JInt 42)]) (JInt 42) (JStr "")).
  - right. left. reflexivity.
  - reflexivity.
  - reflexivity.
  - reflexivity.
  - reflexivity.
  - reflexivity.
  - right. reflexivity.
Defined.

(** X15: a body that decodes to anything but an object -- [null], a
    number, a string, a list -- is answered 500 and nothing is called;
    only a missing [body] key counts as the empty object. *)
Theorem non_object_body_is_rejected (W : World) (ev : event) (update : json) :
  decodes_to ev update ->
  (forall items, update <> JObj items) ->
  effects (handler W ev) = [] /\
  exists r, result (handler W ev) = Ok r /\ statusCode r = 500.
Proof.
  intros Hdec Hshape.
  rewrite (handler_decoded W ev update Hdec).
  unfold process_message.
  destruct update as [| b | n | f | s | l | items];
    try (split; [reflexivity | eexists; split; reflexivity]).
  - rewrite bind_lift_cases. cbn [py_contains].
    destruct (is_substring "callback_query" s);
      (split; [reflexivity | eexists; split; reflexivity]).
  - rewrite bind_lift_cases. cbn [py_contains].
    destruct (existsb (fun y => eq_str y "callback_query") l);
      (split; [reflexivity | eexists; split; reflexivity]).
  - exfalso. apply (Hshape items). reflexivity.
Qed.

Lemma X15_witness :
  effects (handler active_world (Event (Some (BodyValue JNull)))) = [] /\
  exists r,
    result (handler active_world (Event (Some (BodyValue JNull)))) = Ok r /\
    statusCode r = 500.
Proof.
  apply (non_object_body_is_rejected active_world
           (Event (Some (BodyValue JNull))) JNull).
  - right. left. reflexivity.
  - discriminate.
Defined.

(** ** Records stay well formed *)

Lemma default_agent_opt_str (agents : registry) : opt_str (default_agent agents).
Proof. destruct agents as [| [k n] rest]; [left | right; eexists]; reflexivity. Qed.

Lemma loaded_is_record (W : World) (chat_id state : json) :
  store_well_formed W ->
  result (get_dialog_state W chat_id) = Ok state ->
  session_record state.
Proof.
  intros Hstore Hload. apply loaded_of_result in Hload. subst state.
  unfold loaded_state.
  destruct (s3_get_object W (dialog_key W chat_id)) as [[raw error | v] | e] eqn:Hget;
    try (exists JNull, 0, (default_agent (get_agents W));
         repeat split; [lia | left; reflexivity | apply default_agent_opt_str]).
  apply (Hstore _ _ Hget).
Qed.

Lemma record_agent (state agent_id : json) :
  session_record state ->
  result (lift (py_get state "agent_id")) = Ok agent_id ->
  opt_str agent_id.
Proof.
  intros (t & n & a & -> & _ & _ & Ha) H. simpl in H.
  injection H as <-. exact Ha.
Qed.

Lemma record_count (state count : json) :
  session_record state ->
  result (lift (py_get_default state "message_count" (JInt 0))) = Ok count ->
  exists n, count = JInt n /\ 0 <= n.
Proof.
  intros (t & n & a & -> & Hn & _ & _) H. simpl in H.
  injection H as <-. eauto.
Qed.

Lemma reset_is_record (agent_id : json) :
  opt_str agent_id -> session_record (mk_state JNull (JInt 0) agent_id).
Proof.
  intros Ha. exists JNull, 0, agent_id.
  repeat split; [lia | left; reflexivity | exact Ha].
Qed.

Ltac record_facts Hstore :=
  repeat match goal with
         | Hl : result (get_dialog_state ?W ?c) = Ok ?a |- _ =>
             apply (loaded_is_record W c a Hstore) in Hl
         | Hr : session_record ?a,
           Ha : result (lift (py_get ?a "agent_id")) = Ok ?x |- _ =>
             apply (record_agent a x Hr) in Ha
         end.

Lemma handle_command_writes_records (W : World) (chat_id command : json) :
  store_well_formed W ->
  writes_all (fun w => session_record (snd w)) (handle_command W chat_id command).
Proof.
  intros Hstore. unfold handle_command.
  repeat writes_step; record_facts Hstore; cbn [snd]; apply reset_is_record.
  - match goal with
    | |- opt_str (if ?b then _ else _) => destruct b
    end; [apply default_agent_opt_str | assumption].
  - assumption.
Qed.

Lemma handle_callback_query_writes_records (W : World) (callback_query : json) :
  writes_all (fun w => session_record (snd w))
    (handle_callback_query W callback_query).
Proof.
  unfold handle_callback_query.
  repeat writes_step; cbn [snd]; apply reset_is_record.
  right. eexists. reflexivity.
Qed.

Lemma get_ai_response_writes_records (W : World) (message chat_id : json) :
  store_well_formed W ->
  writes_all (fun w => session_record (snd w)) (get_ai_response W message chat_id).
Proof.
  intros Hstore. unfold get_ai_response.
  repeat writes_step. cbn [snd].
  match goal with
  | Hl : result (get_dialog_state W chat_id) = Ok ?a |- _ =>
      pose proof (loaded_is_record W chat_id a Hstore Hl) as Hrec
  end.
  match goal with
  | Hc : result (lift (py_get_default _ "message_count" _)) = Ok ?c |- _ =>
      destruct (record_count _ c Hrec Hc) as (n & -> & Hn)
  end.
  match goal with
  | Ha : result (lift (py_get _ "agent_id")) = Ok ?x |- _ =>
      pose proof (record_agent _ x Hrec Ha) as Hagent
  end.
  match goal with
  | Hadd : result (lift (py_add_one (JInt n))) = Ok ?c' |- _ =>
      simpl in Hadd; injection Hadd as <-
  end.
  eexists _, (n + 1), _.
  repeat split; [lia | right; eexists; reflexivity | exact Hagent].
Qed.

(** X16: the handler keeps the store well formed.  If every stored object
    that decodes is a session record -- the three fields, token and agent
    [None] or a string, count a non-negative integer -- then every record
    written in a run of the handler is a session record again. *)
Theorem handler_writes_session_records (W : World) (ev : event) :
  store_well_formed W ->
  Forall (fun w => session_record (snd w)) (written (effects (handler W ev))).
Proof.
  intros Hstore.
  change (writes_all (fun w => session_record (snd w)) (handler W ev)).
  unfold handler.
  destruct (body ev) as [[t | v] |];
    repeat first
      [ apply (handle_command_writes_records W _ _ Hstore)
      | apply handle_callback_query_writes_records
      | apply (get_ai_response_writes_records W _ _ Hstore)
      | match goal with
        | |- writes_all _ (process_message _ _) => unfold process_message
        end
      | writes_step ].
Qed.

Lemma active_world_well_formed : store_well_formed active_world.
Proof.
  intros key v H. simpl in H.
  destruct (key =? "dialogs/42.json")%string; [| discriminate H].
  injection H as <-.
  exists (JStr "t1"), 3, (JStr "a1").
  repeat split; [lia | right; eexists; reflexivity | right; eexists; reflexivity].
Qed.

Lemma X16_witness :
  Forall (fun w => session_record (snd w))
    (written (effects (handler active_world
                         (Event (Some (BodyValue
                            (message_update (JInt 42) (JStr "hi")))))))).
Proof.
  apply (handler_writes_session_records active_world
           (Event (Some (BodyValue (message_update (JInt 42) (JStr "hi")))))).
  exact active_world_well_formed.
Defined.

(** ** From one run to the next *)

(** X17: turns chain.  If a successful turn ran in one world and the store
    of the next world returns the record that turn wrote, then the next
    turn asks the completion API to continue from the first turn's id, with
    the same agent, and on success writes the count two above the one first
    loaded. *)
Theorem turns_chain (W1 W2 : World) (message1 message2 chat_id : json)
    (items : list (string * json)) (agent_id : json) (n : Z) (r1 r2 : response) :
  result (get_dialog_state W1 chat_id) = Ok (JObj items) ->
  assoc "agent_id" items = Some agent_id ->
  truthy agent_id = true ->
  assoc "message_count" items = Some (JInt n) ->
  responses_create W1 agent_id message1
    (field (JObj items) "previous_response_id") = Ok r1 ->
  (forall state,
     In (dialog_key W1 chat_id, state)
        (written (effects (get_ai_response W1 message1 chat_id))) ->
     s3_get_object W2 (dialog_key W2 chat_id) = Ok (Encodes state)) ->
  responses_create W2 agent_id message2 (JStr (id r1)) = Ok r2 ->
  completions (effects (get_ai_response W2 message2 chat_id)) =
    [(agent_id, message2, JStr (id r1))] /\
  written (effects (get_ai_response W2 message2 chat_id)) =
    [(dialog_key W2 chat_id, mk_state (JStr (id r2)) (JInt (n + 2)) agent_id)] /\
  result (get_ai_response W2 message2 chat_id) = Ok (output_text r2).
Proof.
  intros Hload Hagent Ta Hcount Hai Hstore Hai2.
  apply loaded_of_result in Hload.
  assert (Hfirst : written (effects (get_ai_response W1 message1 chat_id)) =
                   [(dialog_key W1 chat_id,
                     mk_state (JStr (id r1)) (JInt (n + 1)) agent_id)]).
  { destruct (responses_create_client _ _ _ _ _ Hai) as [client Hclient].
    rewrite (get_ai_response_run W1 message1 chat_id items client Hclient Hload).
    cbv zeta.
    replace (field (JObj items) "agent_id") with agent_id
      by (unfold field, py_get, py_get_default; rewrite Hagent; reflexivity).
    rewrite Ta, Hai, Hcount. cbn [negb py_add_one].
    unfold effects. cbn [fst written]. apply written_save_log. }
  assert (Hload2 : loaded_state W2 chat_id =
                   mk_state (JStr (id r1)) (JInt (n + 1)) agent_id).
  { unfold loaded_state.
    rewrite (Hstore (mk_state (JStr (id r1)) (JInt (n + 1)) agent_id));
      [reflexivity |].
    rewrite Hfirst. left. reflexivity. }
  destruct (responses_create_client _ _ _ _ _ Hai2) as [client2 Hclient2].
  rewrite (get_ai_response_run W2 message2 chat_id _ client2 Hclient2 Hload2).
  cbv zeta.
  cbn [field py_get py_get_default assoc String.eqb Ascii.eqb Bool.eqb andb].
  rewrite Ta, Hai2. cbn [negb py_add_one].
  replace (n + 1 + 1) with (n + 2) by lia.
  unfold effects, result. cbn [fst snd completions written].
  rewrite completions_save_log, written_save_log. repeat split.
Qed.

Lemma X17_witness :
  completions (effects (get_ai_response next_world (JStr "more") (JInt 42))) =
    [(JStr "a1", JStr "more", JStr "t2")] /\
  written (effects (get_ai_response next_world (JStr "more") (JInt 42))) =
    [("dialogs/42.json", mk_state (JStr "t3") (JInt 5) (JStr "a1"))] /\
  result (get_ai_response next_world (JStr "more") (JInt 42)) = Ok "Again".
Proof.
  apply (turns_chain active_world next_world (JStr "hi") (JStr "more") (JInt 42)
           [("previous_response_id", JStr "t1"); ("message_count", JInt 3);
            ("agent_id", JStr "a1")]
           (JStr "a1") 3 (Response "t2" "Hello") (Response "t3" "Again")).
  - reflexivity.
  - reflexivity.
  - reflexivity.
  - reflexivity.
  - reflexivity.
  - intros state [Heq | []]. injection Heq as <-. reflexivity.
  - reflexivity.
Defined.

(** X18: a reset starts a fresh conversation.  If the new-dialog command
    ran on a session with a selected agent and the store of the next world
    returns the record it wrote, then the next turn sends no continuation
    token, uses the agent that was kept, and on success writes count 1. *)
Theorem reset_starts_fresh (W1 W2 : World) (command message chat_id : json)
    (items : list (string * json)) (agent_id : json) (r : response) :
  in_strs command ["🆕 Новый диалог"; "/new"] = true ->
  result (get_dialog_state W1 chat_id) = Ok (JObj items) ->
  assoc "agent_id" items = Some agent_id ->
  truthy agent_id = true ->
  (forall state,
     In (dialog_key W1 chat_id, state)
        (written (effects (handle_command W1 chat_id command))) ->
     s3_get_object W2 (dialog_key W2 chat_id) = Ok (Encodes state)) ->
  responses_create W2 agent_id message JNull = Ok r ->
  completions (effects (get_ai_response W2 message chat_id)) =
    [(agent_id, message, JNull)] /\
  written (effects (get_ai_response W2 message chat_id)) =
    [(dialog_key W2 chat_id, mk_state (JStr (id r)) (JInt 1) agent_id)] /\
  result (get_ai_response W2 message chat_id) = Ok (output_text r).
Proof.
  intros Hcmd Hload Hagent Ta Hstore Hai.
  apply loaded_of_result in Hload.
  assert (Hfirst : written (effects (handle_command W1 chat_id command)) =
                   [(dialog_key W1 chat_id, mk_state JNull (JInt 0) agent_id)]).
  { rewrite (handle_command_new W1 chat_id command items Hcmd Hload).
    unfold effects. cbn [fst].
    rewrite written_app. cbn [written]. rewrite written_save_log.
    unfold field, py_get, py_get_default. rewrite Hagent. reflexivity. }
  assert (Hload2 : loaded_state W2 chat_id = mk_state JNull (JInt 0) agent_id).
  { unfold loaded_state.
    rewrite (Hstore (mk_state JNull (JInt 0) agent_id)); [reflexivity |].
    rewrite Hfirst. left. reflexivity. }
  destruct (responses_create_client _ _ _ _ _ Hai) as [client Hclient].
  rewrite (get_ai_response_run W2 message chat_id _ client Hclient Hload2).
  cbv zeta.
  cbn [field py_get py_get_default assoc String.eqb Ascii.eqb Bool.eqb andb].
  rewrite Ta, Hai. cbn [negb py_add_one].
  unfold effects, result. cbn [fst snd completions written].
  rewrite completions_save_log, written_save_log. repeat split.
Qed.

Lemma X18_witness :
  completions (effects (get_ai_response reset_world (JStr "hi") (JInt 42))) =
    [(JStr "a1", JStr "hi", JNull)] /\
  written (effects (get_ai_response reset_world (JStr "hi") (JInt 42))) =
    [("dialogs/42.json", mk_state (JStr "t3") (JInt 1) (JStr "a1"))] /\
  result (get_ai_response reset_world (JStr "hi") (JInt 42)) = Ok "Again".
Proof.
  apply (reset_starts_fresh active_world reset_world (JStr "/new") (JStr "hi")
           (JInt 42)
           [("previous_response_id", JStr "t1"); ("message_count", JInt 3);
            ("agent_id", JStr "a1")]
           (JStr "a1") (Response "t3" "Again")).
  - reflexivity.
  - reflexivity.
  - reflexivity.
  - reflexivity.
  - intros state [Heq | []]. injection Heq as <-. reflexivity.
  - reflexivity.
Defined.

(** ** A bot without agents *)

Lemma loaded_default (W : World) (chat_id state : json) :
  get_agents W = [] ->
  (forall key v, s3_get_object W key <> Ok (Encodes v)) ->
  result (get_dialog_state W chat_id) = Ok state ->
  state = mk_state JNull (JInt 0) JNull.
Proof.
  intros Hreg Hempty Hload. apply loaded_of_result in Hload. subst state.
  unfold loaded_state. rewrite Hreg.
  destruct (s3_get_object W (dialog_key W chat_id)) as [[raw error | v] | e] eqn:Hget;
    try reflexivity.
  exfalso. apply (Hempty _ _ Hget).
Qed.

Ltac inert_facts Hreg Hempty :=
  repeat match goal with
         | H : result (get_dialog_state ?W ?c) = Ok ?a |- _ =>
             apply (loaded_default W c a Hreg Hempty) in H; subst a
         | H : result (lift (py_get (mk_state _ _ _) _)) = Ok _ |- _ =>
             cbn in H; injection H as <-
         end;
  cbn [truthy negb andb orb has_key assoc length Nat.eqb default_agent].

Ltac inert_solve Hreg Hempty :=
  repeat (first [calls_step]; inert_facts Hreg Hempty);
  try exact I; try reflexivity.

Lemma handle_command_inert (W : World) (chat_id command : json) :
  get_agents W = [] ->
  (forall key v, s3_get_object W key <> Ok (Encodes v)) ->
  calls_all inert (handle_command W chat_id command).
Proof.
  intros Hreg Hempty. unfold handle_command. rewrite Hreg.
  inert_solve Hreg Hempty.
Qed.

Lemma handle_callback_query_inert (W : World) (callback_query : json) :
  get_agents W = [] ->
  calls_all inert (handle_callback_query W callback_query).
Proof.
  intros Hreg. unfold handle_callback_query. rewrite Hreg.
  repeat (first [calls_step];
          cbn [truthy negb andb orb has_key assoc]);
    try exact I.
Qed.

Lemma get_ai_response_inert (W : World) (message chat_id : json) :
  get_agents W = [] ->
  (forall key v, s3_get_object W key <> Ok (Encodes v)) ->
  calls_all inert (get_ai_response W message chat_id).
Proof.
  intros Hreg Hempty. unfold get_ai_response.
  inert_solve Hreg Hempty.
Qed.

(** X19: without agents the bot is inert.  When the registry is empty and
    the store holds no decodable object, no run of the handler makes a
    request to the completion API, and no record it writes has an agent:
    no chat command or callback can select one. *)
Theorem no_registry_no_completion (W : World) (ev : event) :
  get_agents W = [] ->
  (forall key v, s3_get_object W key <> Ok (Encodes v)) ->
  completions (effects (handler W ev)) = [] /\
  forall key state,
    In (key, state) (written (effects (handler W ev))) ->
    field state "agent_id" = JNull.
Proof.
  intros Hreg Hempty.
  assert (H : calls_all inert (handler W ev)).
  { unfold handler.
    destruct (body ev) as [[t | v] |];
      repeat first
        [ apply (handle_command_inert W _ _ Hreg Hempty)
        | apply (handle_callback_query_inert W _ Hreg)
        | apply (get_ai_response_inert W _ _ Hreg Hempty)
        | match goal with
          | |- calls_all _ (process_message _ _) => unfold process_message
          end
        | calls_step ];
      exact I. }
  unfold calls_all in H.
  induction (effects (handler W ev)) as [| call l IH].
  - split; [reflexivity | contradiction].
  - inversion H as [| ? ? Hcall Hrest]; subst.
    destruct (IH Hrest) as [IHc IHw].
    destruct call; simpl in Hcall |- *; try (split; assumption).
    + split; [exact IHc |].
      intros k st [Heq | Hin]; [injection Heq as <- <-; exact Hcall | eauto].
    + contradiction.
Qed.

Lemma X19_witness :
  completions (effects (handler empty_world
                          (Event (Some (BodyValue
                             (message_update (JInt 42) (JStr "hi"))))))) = [] /\
  forall key state,
    In (key, state)
       (written (effects (handler empty_world
                            (Event (Some (BodyValue
                               (message_update (JInt 42) (JStr "hi")))))))) ->
    field state "agent_id" = JNull.
Proof.
  apply (no_registry_no_completion empty_world
           (Event (Some (BodyValue (message_update (JInt 42) (JStr "hi")))))).
  - reflexivity.
  - intros key v H. simpl in H.
    destruct (key =? "dialogs/42.json")%string; discriminate H.
Defined.

(** ** Switching when the store rejects the write *)

(** X20: the acknowledgement of a switch does not depend on the write.
    When a registered agent other than the loaded one is selected and
    [put_object] raises, the failure is printed, and the callback is still
    acknowledged as changed and the message still edited to show the new
    agent as selected. *)
Theorem switch_acknowledged_despite_failed_write (W : World)
    (callback_query callback_id chat_id message_id : json)
    (agent_id agent_name : string) (items : list (string * json)) (e : exn) :
  callback_fields callback_query callback_id (JStr ("agent:" ++ agent_id))
    chat_id message_id ->
  truthy chat_id = true ->
  assoc agent_id (get_agents W) = Some agent_name ->
  result (get_dialog_state W chat_id) = Ok (JObj items) ->
  eq_str (field (JObj items) "agent_id") agent_id = false ->
  s3_put_object W (dialog_key W chat_id)
    (mk_state JNull (JInt 0) (JStr agent_id)) = Raise e ->
  handle_callback_query W callback_query =
    ([S3GetObject (dialog_key W chat_id);
      S3PutObject (dialog_key W chat_id) (mk_state JNull (JInt 0) (JStr agent_id));
      Print ("Error saving state: " ++ msg e);
      AnswerCallbackQuery callback_id (Some "✅ Агент изменён! Контекст сброшен.");
      EditMessageText chat_id message_id (selected_text agent_name)
        (Some (get_agents_inline_keyboard W (JStr agent_id)))],
     Ok (JObj [("ok", JBool true); ("action", JStr "agent_selected");
               ("agent_id", JStr agent_id)])).
Proof.
  intros Hfields Tc Hname Hload Hne Hput.
  apply loaded_of_result in Hload.
  rewrite (handle_callback_query_select W callback_query callback_id chat_id
             message_id agent_id agent_name items Hfields Tc Hname Hload).
  rewrite Hne. unfold save_log. rewrite Hput. reflexivity.
Qed.

Lemma X20_witness :
  handle_callback_query read_only_world
    (callback_query_of (JStr "cb1") (JStr "agent:a2") (JInt 42) (JInt 7)) =
    ([S3GetObject "dialogs/42.json";
      S3PutObject "dialogs/42.json" (mk_state JNull (JInt 0) (JStr "a2"));
      Print "Error saving state: AccessDenied";
      AnswerCallbackQuery (JStr "cb1") (Some "✅ Агент изменён! Контекст сброшен.");
      EditMessageText (JInt 42) (JInt 7) (selected_text "Coder")
        (Some (get_agents_inline_keyboard read_only_world (JStr "a2")))],
     Ok (JObj [("ok", JBool true); ("action", JStr "agent_selected");
               ("agent_id", JStr "a2")])).
Proof.
  apply (switch_acknowledged_despite_failed_write read_only_world
           (callback_query_of (JStr "cb1") (JStr "agent:a2") (JInt 42) (JInt 7))
           (JStr "cb1") (JInt 42) (JInt 7) "a2" "Coder"
           [("previous_response_id", JStr "t1"); ("message_count", JInt 3);
            ("agent_id", JStr "a1")]
           (Exn ClientError "AccessDenied")).
  - exists (JObj [("chat", JObj [("id", JInt 42)]); ("message_id", JInt 7)]).
    exists (JObj [("id", JInt 42)]).
    repeat split; reflexivity.
  - reflexivity.
  - reflexivity.
  - reflexivity.
  - reflexivity.
  - reflexivity.
Defined.

(** ** The first message of a chat *)



(** ** Acknowledgements *)

(** X22: past the early return every callback is acknowledged exactly
    once and the webhook answers 200.  For a callback query with a truthy
    chat id and a non-empty string as data, on a session that loads as a
    record, the run of the handler contains exactly one
    answerCallbackQuery, for the id of that callback -- whether the data
    selects a registered agent, an unknown one, or is no selection at
    all. *)
Theorem processed_callback_acknowledged_once (W : World) (ev : event)
    (update callback_query callback_id chat_id message_id : json)
    (data : string) (items : list (string * json)) :
  decodes_to ev update ->
  py_contains "callback_query" update = Ok true ->
  py_getitem update "callback_query" = Ok callback_query ->
  callback_fields callback_query callback_id (JStr data) chat_id message_id ->
  truthy chat_id = true ->
  data <> "" ->
  result (get_dialog_state W chat_id) = Ok (JObj items) ->
  exists notice res,
    acknowledgements (effects (handler W ev)) = [(callback_id, notice)] /\
    result (handler W ev) =
      Ok (Envelope 200 [("Content-Type", "application/json")] res).
Proof.
  intros Hdec Hin Hget Hfields Tc Hne Hload.
  apply loaded_of_result in Hload.
  assert (Hrun : exists l res notice,
             handle_callback_query W callback_query = (l, Ok res) /\
             acknowledgements l = [(callback_id, notice)]).
  { destruct (String.prefix "agent:" data) eqn:Hpre.
    - destruct (prefix_app "agent:" data Hpre) as [agent_id ->].
      destruct (assoc agent_id (get_agents W)) as [agent_name |] eqn:Hname.
      + rewrite (handle_callback_query_select W callback_query callback_id chat_id
                   message_id agent_id agent_name items Hfields Tc Hname Hload).
        unfold save_log.
        destruct (eq_str (field (JObj items) "agent_id") agent_id);
          [| destruct (s3_put_object W _ _)];
          do 3 eexists; (split; [reflexivity |]); reflexivity.
      + rewrite (handle_callback_query_not_found W callback_query callback_id chat_id
                   message_id agent_id Hfields Tc);
          [| unfold has_key; rewrite Hname; reflexivity].
        do 3 eexists. split; reflexivity.
    - rewrite (handle_callback_query_unknown W callback_query callback_id chat_id
                 message_id data Hfields Tc Hne Hpre).
      do 3 eexists. split; reflexivity. }
  destruct Hrun as (l & res & notice & Hrun & Hack).
  exists notice, res.
  rewrite (handler_ok W ev update l res Hdec).
  - split; [exact Hack | reflexivity].
  - rewrite (process_message_callback W update callback_query Hin Hget).
    exact Hrun.
Qed.

Lemma X22_witness :
  exists notice res,
    acknowledgements
      (effects (handler active_world
                  (Event (Some (BodyValue
                     (JObj [("callback_query",
                             callback_query_of (JStr "cb1") (JStr "agent:a2")
                               (JInt 42) (JInt 7))])))))) =
      [(JStr "cb1", notice)] /\
    result (handler active_world
              (Event (Some (BodyValue
                 (JObj [("callback_query",
                         callback_query_of (JStr "cb1") (JStr "agent:a2")
                           (JInt 42) (JInt 7))]))))) =
      Ok (Envelope 200 [("Content-Type", "application/json")] res).
Proof.
  apply (processed_callback_acknowledged_once active_world
           (Event (Some (BodyValue
              (JObj [("callback_query",
                      callback_query_of (JStr "cb1") (JStr "agent:a2")
                        (JInt 42) (JInt 7))]))))
           (JObj [("callback_query",
                   callback_query_of (JStr "cb1") (JStr "agent:a2") (JInt 42) (JInt 7))])
           (callback_query_of (JStr "cb1") (JStr "agent:a2") (JInt 42) (JInt 7))
           (JStr "cb1") (JInt 42) (JInt 7) "agent:a2"
           [("previous_response_id", JStr "t1"); ("message_count", JInt 3);
            ("agent_id", JStr "a1")]).
  - right. left. reflexivity.
  - reflexivity.
  - reflexivity.
  - exists (JObj [("chat", JObj [("id", JInt 42)]); ("message_id", JInt 7)]).
    exists (JObj [("id", JInt 42)]).
    repeat split; reflexivity.
  - reflexivity.
  - discriminate.
  - reflexivity.
Defined.

(** ** Commands under a well-formed store *)

(** The status command on a session that loaded as a [dict]. *)
Lemma handle_command_status (W : World) (chat_id command : json)
    (items : list (string * json)) (agent_name : string) :
  in_strs command ["/status"; "📊 Статус"] = true ->
  loaded_state W chat_id = JObj items ->
  agent_name_of (get_agents W) (field (JObj items) "agent_id") = Ok agent_name ->
  handle_command W chat_id command =
    ([S3GetObject (dialog_key W chat_id);
      SendMessage chat_id
        (status_text agent_name
           (py_str W (match assoc "message_count" items with
                      | Some v => v
                      | None => JInt 0
                      end))
           (if truthy (field (JObj items) "previous_response_id")
            then "✅ Да" else "❌ Нет"))
        (Some get_main_menu)],
     Ok (JObj [("ok", JBool true); ("action", JStr "status")])).
Proof.
  intros Hcmd Hload Hname.
  unfold field, py_get, py_get_default in *.
  pick_literal Hcmd; unfold handle_command; choose_branch_goal;
    rewrite get_dialog_state_run, Hload, bind_pair_ok;
    unfold py_get, py_get_default;
    destruct (assoc "message_count" items);
    destruct (assoc "previous_response_id" items);
    destruct (assoc "agent_id" items);
    rewrite !bind_lift_ok, Hname, bind_lift_ok; reflexivity.
Qed.

Lemma agent_name_of_opt_str (agents : registry) (agent_id : json) :
  opt_str agent_id -> exists name, agent_name_of agents agent_id = Ok name.
Proof.
  intros [-> | [s ->]]; unfold agent_name_of.
  - eexists. reflexivity.
  - destruct (truthy (JStr s)); [| eexists; reflexivity].
    destruct (assoc s agents); eexists; reflexivity.
Qed.

(** X23: under a well-formed store every command is answered.  If every
    stored object that decodes is a session record, then each command
    literal makes [handle_command] return its [ok] result, never raise, and
    send exactly one message, to the chat that sent the command. *)
Theorem commands_always_answered (W : World) (chat_id command : json) :
  store_well_formed W ->
  is_command command = true ->
  exists text markup action,
    deliveries (effects (handle_command W chat_id command)) =
      [SendMessage chat_id text (Some markup)] /\
    result (handle_command W chat_id command) =
      Ok (JObj [("ok", JBool true); ("action", JStr action)]).
Proof.
  intros Hstore Hcmd.
  destruct (get_dialog_state_total W chat_id) as [state Hstate].
  destruct (loaded_is_record W chat_id state Hstore Hstate)
    as (token & count & agent_id & -> & Hcount & Htoken & Hagent).
  apply loaded_of_result in Hstate.
  assert (Hsplit :
            in_strs command ["/start"] = true \/
            in_strs command ["🆕 Новый диалог"; "/new"] = true \/
            in_strs command ["🤖 Агенты"; "/agents"] = true \/
            in_strs command ["/status"; "📊 Статус"] = true \/
            in_strs command ["/help"; "❓ Помощь"] = true).
  { unfold is_command in Hcmd. pick_literal Hcmd; simpl; tauto. }
  destruct Hsplit as [H | [H | [H | [H | H]]]].
  - pick_literal H.
    destruct (agent_name_of_opt_str (get_agents W)
                (if negb (truthy (field (mk_state token (JInt count) agent_id)
                                    "agent_id")) &&
                    negb (length (get_agents W) =? 0)%nat
                 then default_agent (get_agents W)
                 else field (mk_state token (JInt count) agent_id) "agent_id"))
      as [name Hname].
    { destruct (_ && _); [apply default_agent_opt_str | exact Hagent]. }
    rewrite (handle_command_start W chat_id _ _ name Hstate eq_refl Hname).
    do 3 eexists. unfold effects, result. cbn [fst snd].
    rewrite deliveries_app. cbn [deliveries]. rewrite deliveries_save_log.
    split; reflexivity.
  - rewrite (handle_command_new W chat_id command _ H Hstate).
    do 3 eexists. unfold effects, result. cbn [fst snd].
    rewrite deliveries_app. cbn [deliveries]. rewrite deliveries_save_log.
    split; reflexivity.
  - rewrite (handle_command_agents W chat_id command _ H Hstate).
    do 3 eexists. split; reflexivity.
  - destruct (agent_name_of_opt_str (get_agents W) agent_id Hagent)
      as [name Hname].
    rewrite (handle_command_status W chat_id command _ name H Hstate Hname).
    do 3 eexists. split; reflexivity.
  - pick_literal H; do 3 eexists; split; reflexivity.
Qed.

Lemma X23_witness :
  exists text markup action,
    deliveries (effects (handle_command active_world (JInt 42) (JStr "/status"))) =
      [SendMessage (JInt 42) text (Some markup)] /\
    result (handle_command active_world (JInt 42) (JStr "/status")) =
      Ok (JObj [("ok", JBool true); ("action", JStr action)]).
Proof.
  apply (commands_always_answered active_world (JInt 42) (JStr "/status")).
  - exact active_world_well_formed.
  - reflexivity.
Defined.

(** Free text without an API key: the client cannot be built, the store is
    not touched, the reply is the error text. *)
Example scenario_no_api_key :
  handler keyless_world
    (Event (Some (BodyValue (message_update (JInt 42) (JStr "hi"))))) =
    ([SendChatAction (JInt 42);
      SendMessage (JInt 42) ("❌ Ошибка: " ++ msg missing_credentials)
        (Some get_main_menu)],
     Ok (Envelope 200 [("Content-Type", "application/json")]
           (JObj [("ok", JBool true); ("message", JStr "Response sent")]))).
Proof. reflexivity. Qed.
